(** * CliHelper: a shallow embedding of [clihelper.py]

    The development follows the layout of the Python module:
    - [Py]: the builtins the module relies on (string and list
      repetition, [str.join], [str.isdigit], [int], [str.lower],
      [str.endswith], format alignment, [max], list indexing);
    - [IO]: the console, with a small monad for code that prints, reads
      and may raise;
    - [request_input], [MenuConfig], [_OptionNode] and [CliHelper] as in
      the source. Nodes are objects: they live in a heap and are named by
      their place in it, so that the node [add_option] changes is the one
      its parent lists;
    - [Spec]: the menu as section 4.2 of the specification words it, to
      compare [_draw_menu] with.

    Conventions.
    - A string is a sequence of code points below 256 ([string], one
      [ascii] per code point) and [len] counts them; [str.isdigit],
      [int] and [str.lower] are Python's on these code points. Text with
      code points from 256 on is outside the model.
    - The console holds the lines the session types, up to the end of the
      input: a read with no line left raises [EOFError], as [input] does.
      The console itself does not fail: every print succeeds.
    - Memory is not bounded: repeating a string or a list never fails,
      whatever the count.
    - Loops and nested calls are bounded by a [fuel] argument; [OutOfFuel]
      is the bound running out, not a behaviour of the program.
    - A host callable is any function from its arguments and the console
      to an outcome; a validator ([check_func]) answers with a boolean or
      raises. *)

From Stdlib Require Import ZArith String Ascii List Lia Bool DecimalString.
From Stdlib Require DecimalPos DecimalFacts.
From stdpp Require Import base list strings.

Open Scope Z_scope.

(** ** Python builtins *)

Module Py.

(** [s * n] on strings: nothing for [n <= 0]. Counts that do not fit an
    index, which Python refuses, are not told apart. *)
Fixpoint str_rep (s : string) (n : nat) : string :=
  match n with
  | O => ""
  | S n' => s +:+ str_rep s n'
  end.

Definition str_mul (s : string) (n : Z) : string := str_rep s (Z.to_nat n).

(** [l * n] on lists. *)
Fixpoint list_rep {A} (l : list A) (n : nat) : list A :=
  match n with
  | O => []
  | S n' => l ++ list_rep l n'
  end.

Definition list_mul {A} (l : list A) (n : Z) : list A := list_rep l (Z.to_nat n).

(** [sep.join(l)] *)
Fixpoint join (sep : string) (l : list string) : string :=
  match l with
  | [] => ""
  | [x] => x
  | x :: rest => x +:+ sep +:+ join sep rest
  end.

Definition len (s : string) : Z := Z.of_nat (String.length s).

Definition len_list {A} (l : list A) : Z := Z.of_nat (List.length l).

(** [str(n)] for an integer. *)
Definition str (n : Z) : string := NilZero.string_of_int (Z.to_int n).

(** The decimal digits: below 256, the characters [0] to [9]. *)
Definition is_decimal_char (c : ascii) : bool :=
  (48 <=? nat_of_ascii c)%nat && (nat_of_ascii c <=? 57)%nat.

(** The characters with a digit value: below 256, the decimal digits and
    the superscripts two, three and one (U+00B2, U+00B3, U+00B9). *)
Definition is_digit_char (c : ascii) : bool :=
  is_decimal_char c
  || (nat_of_ascii c =? 178)%nat || (nat_of_ascii c =? 179)%nat
  || (nat_of_ascii c =? 185)%nat.

Fixpoint all_digits (s : string) : bool :=
  match s with
  | EmptyString => true
  | String c s' => is_digit_char c && all_digits s'
  end.

(** [s.isdigit()]: at least one character, and digits only. *)
Definition isdigit (s : string) : bool :=
  match s with
  | EmptyString => false
  | _ => all_digits s
  end.

Fixpoint int_acc (acc : Z) (s : string) : option Z :=
  match s with
  | EmptyString => Some acc
  | String c s' =>
      if is_decimal_char c
      then int_acc (10 * acc + (Z.of_nat (nat_of_ascii c) - 48)) s'
      else None
  end.

(** The longest string of digits [int] converts
    ([sys.int_info.default_max_str_digits]). *)
Definition int_max_str_digits : Z := 4300.

(** [int(s)] for a string [s] of which [s.isdigit()] holds, the only
    strings the module hands to it: the value of a string of at most 4300
    decimal digits; [None] stands for the [ValueError] raised on a
    superscript digit and on a longer string. *)
Definition int (s : string) : option Z :=
  match s with
  | EmptyString => None
  | _ => if len s <=? int_max_str_digits then int_acc 0 s else None
  end.

(** Below 256 the upper-case letters are [A] to [Z] and U+00C0 to U+00DE
    but for the multiplication sign U+00D7; each is 32 below its
    lower-case letter. *)
Definition lower_char (c : ascii) : ascii :=
  let n := nat_of_ascii c in
  if ((65 <=? n)%nat && (n <=? 90)%nat)
     || ((192 <=? n)%nat && (n <=? 222)%nat && negb (n =? 215)%nat)
  then ascii_of_nat (n + 32) else c.

(** [s.lower()] *)
Fixpoint lower (s : string) : string :=
  match s with
  | EmptyString => EmptyString
  | String c s' => String (lower_char c) (lower s')
  end.

(** [s.endswith(suffix)] *)
Definition endswith (s suffix : string) : bool :=
  let n := String.length s in
  let m := String.length suffix in
  (m <=? n)%nat && String.eqb (String.substring (n - m) m s) suffix.

(** [x in (a, b, ...)] for strings. *)
Definition str_in (x : string) (l : list string) : bool :=
  existsb (String.eqb x) l.

(** [x or y] for strings: the empty string is falsy. *)
Definition str_or (x y : string) : string :=
  match x with
  | EmptyString => y
  | _ => x
  end.

(** [f"{s:>{width}}"] and [f"{s:<{width}}"]: pad with spaces. *)
Definition rjust (s : string) (width : Z) : string :=
  str_mul " " (width - len s) +:+ s.

Definition ljust (s : string) (width : Z) : string :=
  s +:+ str_mul " " (width - len s).

(** [max(l)] of a list of integers; [None] stands for the [ValueError]
    raised on an empty list. *)
Definition max (l : list Z) : option Z :=
  match l with
  | [] => None
  | x :: rest => Some (fold_left Z.max rest x)
  end.

(** [l[i]]: negative indices count from the end; [None] stands for
    [IndexError]. *)
Definition index {A} (l : list A) (i : Z) : option A :=
  let n := len_list l in
  if (0 <=? i) && (i <? n) then l !! Z.to_nat i
  else if (- n <=? i) && (i <? 0) then l !! Z.to_nat (n + i)
  else None.

(** [enumerate(l)] *)
Fixpoint enumerate_from {A} (i : Z) (l : list A) : list (Z * A) :=
  match l with
  | [] => []
  | x :: rest => (i, x) :: enumerate_from (i + 1) rest
  end.

Definition enumerate {A} (l : list A) : list (Z * A) := enumerate_from 0 l.

End Py.

(** ** The console *)

Module IO.

Record world := World { stdin : list string; stdout : string }.

Inductive exn :=
| KeyError (key : string)
| ValueError
| IndexError
| TypeError
| EOFError.

(** What a call can come to: it returns, it raises, the bound on the
    number of loop rounds and nested calls ran out, or it was handed a
    reference to no object. *)
Inductive outcome (A : Type) :=
| Done (a : A) (w : world)
| Raised (e : exn) (w : world)
| OutOfFuel
| Dangling.

(** What a pure call can come to: a value or an exception. *)
Inductive result (A : Type) :=
| Ok (a : A)
| Err (e : exn).

Arguments Ok {A} a.
Arguments Err {A} e.
Arguments Done {A} a w.
Arguments Raised {A} e w.
Arguments OutOfFuel {A}.
Arguments Dangling {A}.

Definition M (A : Type) : Type := world -> outcome A.

Definition ret {A} (a : A) : M A := fun w => Done a w.

Definition bind {A B} (m : M A) (k : A -> M B) : M B :=
  fun w =>
    match m w with
    | Done a w' => k a w'
    | Raised e w' => Raised e w'
    | OutOfFuel => OutOfFuel
    | Dangling => Dangling
    end.

Definition raise {A} (e : exn) : M A := fun w => Raised e w.

(** [print(s, end=...)] with an empty [end]: no line feed. *)
Definition print_ (s : string) : M unit :=
  fun w => Done tt (World (stdin w) (stdout w +:+ s)).

(** The line feed that [print] ends a line with. *)
Definition nl : string := String (ascii_of_nat 10) EmptyString.

(** [print(s)] *)
Definition print (s : string) : M unit := print_ (s +:+ nl).

(** [input(prompt)]: the prompt is written, then a line is read. *)
Definition input (prompt : string) : M string :=
  fun w =>
    let out := stdout w +:+ prompt in
    match stdin w with
    | [] => Raised EOFError (World [] out)
    | line :: rest => Done line (World rest out)
    end.

(** A Python value that may be missing: [None] raises [e]. *)
Definition of_option {A} (e : exn) (o : option A) : M A :=
  match o with
  | Some a => ret a
  | None => raise e
  end.

(** The result of a pure call, in the monad. *)
Definition of_result {A} (r : result A) : M A :=
  match r with
  | Ok a => ret a
  | Err e => raise e
  end.

End IO.

Import IO.

Declare Scope io_scope.
Delimit Scope io_scope with io.
Notation "'let*' x ':=' c 'in' k" := (bind c (fun x => k))
  (at level 10, x name, c at level 100, k at level 200) : io_scope.
Notation "'let*' ' p ':=' c 'in' k" := (bind c (fun p => k))
  (at level 10, p pattern, c at level 100, k at level 200) : io_scope.
Notation "c ';;' k" := (bind c (fun _ => k))
  (at level 100, k at level 200, right associativity) : io_scope.
Open Scope io_scope.

(** ** [request_input] *)

(** The keyword arguments of [request_input]. *)
Record options := Options {
  has_default_val : bool;
  default_val : string;
  has_quit_val : bool;
  quit_val : string;
  check_func : option (string -> result bool);
  ask_again : bool;
  need_confirm : bool
}.

(** The defaults of the signature. *)
Definition default_options : options :=
  {| has_default_val := false; default_val := "";
     has_quit_val := true; quit_val := "q";
     check_func := None; ask_again := true; need_confirm := false |}.

(** [lambda x: x.lower() in ("y", "yes", "n", "no")] *)
Definition confirm_check (x : string) : bool :=
  Py.str_in (Py.lower x) ["y"; "yes"; "n"; "no"].

(** The keyword arguments of the nested call that asks for confirmation. *)
Definition confirm_options : options :=
  {| has_default_val := false; default_val := "";
     has_quit_val := false; quit_val := "q";
     check_func := Some (fun x => Ok (confirm_check x));
     ask_again := true; need_confirm := false |}.

Definition confirm_prompt (input_val : string) : string :=
  "Do you confirm the value [" +:+ input_val +:+ "] (yes/no)".

(** Lines 57-67: the confirmation step, [request_input] being the function
    itself. The result tells whether the user turned the value down. *)
Definition confirmation
    (request_input : string -> string -> options -> M (string * bool))
    (o : options) (input_val : string) : M bool :=
  if need_confirm o
  then let* '(result, state) :=
         request_input (confirm_prompt input_val) "Invalid value."
           confirm_options in
       ret (Py.str_in result ["n"; "no"])
  else ret false.

(** Lines 45-51: what is printed before a line is read, and the value the
    line read stands for. *)
Definition prompt_text (prompt_msg : string) (o : options) : string :=
  prompt_msg +:+
  (if has_default_val o then " (Default [" +:+ default_val o +:+ "]): "
   else ": ").

Definition submitted (o : options) (line : string) : string :=
  if has_default_val o then Py.str_or line (default_val o) else line.

(** Lines 69-79: the validation step on the value [input_val], [again]
    being the next round of the loop. *)
Definition validation (again : M (string * bool)) (err_msg : string)
    (o : options) (input_val : string) : M (string * bool) :=
  match check_func o with
  | Some f =>
      let* valid := of_result (f input_val) in
      if negb valid
      then print_ (err_msg +:+ " ") ;;
           if ask_again o
           then print "Please enter again." ;; again
           else print "" ;; ret ("", false)
      else ret (input_val, true)
  | None => ret (input_val, true)
  end.

(** One unit of [fuel] is spent per round of the [while True] loop and per
    nested call. *)
Fixpoint request_input (fuel : nat) (prompt_msg err_msg : string)
    (o : options) : M (string * bool) :=
  match fuel with
  | O => fun _ => OutOfFuel
  | S fuel' =>
      print_ prompt_msg ;;
      let* input_val :=
        (if has_default_val o
         then print_ (" (Default [" +:+ default_val o +:+ "]): ") ;;
              let* line := input "" in
              ret (Py.str_or line (default_val o))
         else input ": ") in
      if has_quit_val o && String.eqb input_val (quit_val o)
      then print "Quit." ;; ret ("", false)
      else
        let* rejected := confirmation (request_input fuel') o input_val in
        if (rejected : bool)
        then request_input fuel' prompt_msg err_msg o
        else validation (request_input fuel' prompt_msg err_msg o)
               err_msg o input_val
  end.

(** ** [MenuConfig] *)

(** [MenuConfig] is a [TypedDict] declared with [total=False]: a
    configuration may leave any key out, and reading a key that was left
    out raises [KeyError]. *)
Record MenuConfig := {
  left_padding : option Z;
  right_padding : option Z;
  top_padding : option Z;
  bottom_padding : option Z;
  edge_char : option string;
  wall_char : option string;
  serial_marker : option string;
  draw_menu_again : option bool
}.

Definition DEFAULT_MENU_CONFIG : MenuConfig :=
  {| left_padding := Some 2; right_padding := Some 10;
     top_padding := Some 1; bottom_padding := Some 1;
     edge_char := Some "#"; wall_char := Some " ";
     serial_marker := Some ". "; draw_menu_again := Some false |}.

(** [menu_config[key]] *)
Definition cfg_get {A} (key : string) (field : option A) : M A :=
  of_option (KeyError key) field.

(** ** [_OptionNode] *)

(** What an action hands back to the loop that called it: [None] or an
    integer (an object of any other kind compares unequal to the three
    codes, as [None] does). *)
Inductive value :=
| VNone
| VInt (z : Z).

Definition _RETURN_CODE : Z := 0xbabe.
Definition _ENTER_CODE : Z := 0xbeef.
Definition _QUIT_CODE : Z := 0xcafe.

(** [v == code] *)
Definition is_code (v : value) (code : Z) : bool :=
  match v with
  | VInt z => z =? code
  | VNone => false
  end.

(** Nodes are objects: a node is named by its place in the heap. *)
Definition node_id := nat.
Bind Scope nat_scope with node_id.

(** The callables an [exec_func] can hold: the methods of the class, bound
    to the node they were taken from, and whatever the host supplies. *)
Inductive action :=
| DefaultFunc
| HostFunc (f : list string -> list (string * string) -> M value)
| EnterNextLevel (self : node_id)
| ReturnPreviousLevel (self : node_id)
| QuitingLevel (self : node_id).

Record OptionNode := {
  title : string;
  exec_func : action;
  args : list string;
  kwargs : list (string * string);
  menu_config : MenuConfig;
  children : list node_id;
  _is_root : bool
}.

(** The heap: the objects created so far, in order of creation. *)
Abbreviation heap := (list OptionNode).

(** [__init__] *)
Definition new_node (title : string) (exec_func : option action)
    (args : option (list string)) (kwargs : option (list (string * string)))
    (menu_config : option MenuConfig) (_is_root : bool) : OptionNode :=
  {| title := title;
     exec_func := default DefaultFunc exec_func;
     args := default [] args;
     kwargs := default [] kwargs;
     menu_config := default DEFAULT_MENU_CONFIG menu_config;
     children := [];
     _is_root := _is_root |}.

Definition get_node (h : heap) (id : node_id) : M OptionNode :=
  fun w =>
    match h !! id with
    | Some nd => Done nd w
    | None => Dangling
    end.

(** [for x in l: body(x)] *)
Fixpoint for_each {A} (l : list A) (body : A -> M unit) : M unit :=
  match l with
  | [] => ret tt
  | x :: rest => body x ;; for_each rest body
  end.

(** [[f(x) for x in l]] *)
Fixpoint comprehension {A B} (l : list A) (f : A -> M B) : M (list B) :=
  match l with
  | [] => ret []
  | x :: rest =>
      let* y := f x in
      let* ys := comprehension rest f in
      ret (y :: ys)
  end.

Definition _get_max_length_of_option_titles (h : heap) (self : node_id)
    : M Z :=
  let* nd := get_node h self in
  let* lens := comprehension (children nd)
                 (fun c => let* cn := get_node h c in ret (Py.len (title cn))) in
  of_option ValueError (Py.max lens).

Definition _draw_menu (h : heap) (self : node_id) : M unit :=
  let* nd := get_node h self in
  let* left := cfg_get "left_padding" (left_padding (menu_config nd)) in
  let* right := cfg_get "right_padding" (right_padding (menu_config nd)) in
  let* top := cfg_get "top_padding" (top_padding (menu_config nd)) in
  let* bottom := cfg_get "bottom_padding" (bottom_padding (menu_config nd)) in
  let* ec := cfg_get "edge_char" (edge_char (menu_config nd)) in
  let* wc := cfg_get "wall_char" (wall_char (menu_config nd)) in
  let* sm := cfg_get "serial_marker" (serial_marker (menu_config nd)) in
  let* max_len_option := _get_max_length_of_option_titles h self in
  let max_len_serial := Py.len (Py.str (Py.len_list (children nd))) in
  let option_width := max_len_serial + Py.len sm + max_len_option in
  let menu_width := left + option_width + right in
  let top_bottom_edge := Py.str_mul ec (menu_width + Py.len ec * 2) in
  let top_bottom_wall := ec +:+ Py.str_mul wc menu_width +:+ ec in
  let left_wall := ec +:+ Py.str_mul wc left in
  let right_wall := Py.str_mul wc right +:+ ec in
  print (Py.join nl ([top_bottom_edge] ++ Py.list_mul [top_bottom_wall] top)) ;;
  for_each (Py.enumerate (children nd))
    (fun '(i, opt) =>
       let* optn := get_node h opt in
       print (left_wall +:+ Py.rjust (Py.str (i + 1)) max_len_serial +:+ sm
              +:+ Py.ljust (title optn) max_len_option +:+ right_wall)) ;;
  print (Py.join nl (Py.list_mul [top_bottom_wall] bottom ++ [top_bottom_edge])).

(** [lambda x: x.isdigit() and 1 <= int(x) <= len(self.children)]: [int]
    is reached when [x.isdigit()] holds, and its [ValueError] is the
    lambda's. *)
Definition option_check (n_children : Z) (x : string) : result bool :=
  if Py.isdigit x
  then match Py.int x with
       | Some n => Ok ((1 <=? n) && (n <=? n_children))
       | None => Err ValueError
       end
  else Ok false.

Definition option_options (n_children : Z) : options :=
  {| has_default_val := false; default_val := "";
     has_quit_val := false; quit_val := "q";
     check_func := Some (option_check n_children);
     ask_again := false; need_confirm := false |}.

Definition option_prompt : string := nl +:+ "Your option".

Definition _request_option (fuel : nat) (h : heap) (self : node_id)
    : M (option node_id) :=
  let* nd := get_node h self in
  let* '(choice, state) :=
    request_input fuel option_prompt "No such option."
      (option_options (Py.len_list (children nd))) in
  if negb state then ret None
  else
    let* n := of_option ValueError (Py.int choice) in
    let* opt := of_option IndexError (Py.index (children nd) (n - 1)) in
    ret (Some opt).

(** [opt.exec_func( *opt.args, **opt.kwargs)]: the methods of the class
    take no argument besides [self]. *)
Definition call_exec_func (enter : node_id -> M value) (opt : OptionNode)
    : M value :=
  let no_args :=
    match args opt, kwargs opt with
    | [], [] => true
    | _, _ => false
    end in
  match exec_func opt with
  | DefaultFunc =>
      if no_args then print "No function" ;; ret VNone else raise TypeError
  | HostFunc f => f (args opt) (kwargs opt)
  | EnterNextLevel n => if no_args then enter n else raise TypeError
  | ReturnPreviousLevel _ =>
      if no_args then ret (VInt _RETURN_CODE) else raise TypeError
  | QuitingLevel _ =>
      if no_args then ret (VInt _QUIT_CODE) else raise TypeError
  end.

(** [state not in (self._RETURN_CODE, self._QUIT_CODE)] *)
Definition keeps_looping (state : value) : bool :=
  negb (is_code state _RETURN_CODE || is_code state _QUIT_CODE).

(** Lines 218-219: the menu is drawn again, or not. *)
Definition redraw (h : heap) (self : node_id) (state : value) : M unit :=
  let* nd := get_node h self in
  let* again := cfg_get "draw_menu_again"
                  (draw_menu_again (menu_config nd)) in
  if again || is_code state _ENTER_CODE
  then _draw_menu h self
  else ret tt.

(** The [while] loop of [_enter_next_level] and the two lines after it,
    from a given [state]. One unit of [fuel] is spent per test of the loop
    condition. *)
Fixpoint enter_loop (fuel : nat) (h : heap) (self : node_id) (state : value)
    : M value :=
  match fuel with
  | O => fun _ => OutOfFuel
  | S fuel' =>
      if keeps_looping state
      then
        redraw h self state ;;
        let* opt := _request_option fuel' h self in
        match opt with
        | None => enter_loop fuel' h self VNone
        | Some c =>
            let* optn := get_node h c in
            let* state' :=
              call_exec_func
                (fun n => enter_loop fuel' h n (VInt _ENTER_CODE)) optn in
            enter_loop fuel' h self state'
        end
      else
        if is_code state _QUIT_CODE
        then ret (VInt _QUIT_CODE)
        else ret (VInt _ENTER_CODE)
  end.

(** A round of the loop up to the choice: lines 218-224. *)
Definition choose (fuel : nat) (h : heap) (self : node_id) (state : value)
    : M (option node_id) :=
  redraw h self state ;; _request_option fuel h self.

Definition _enter_next_level (fuel : nat) (h : heap) (self : node_id)
    : M value :=
  enter_loop fuel h self (VInt _ENTER_CODE).

(** [add_option]: the new heap and the node created, or [None] when [self]
    names no object. *)
Definition add_option (h : heap) (self : node_id) (title_ : string)
    (exec_func_ : option action) (args_ : option (list string))
    (kwargs_ : option (list (string * string))) : option (heap * node_id) :=
  match h !! self with
  | None => None
  | Some nd =>
      let title' :=
        if negb (Py.endswith (title nd) " [d]")
        then title nd +:+ " [d]" else title nd in
      let option := new_node title_ exec_func_ args_ kwargs_
                      (Some (menu_config nd)) false in
      let id := length h in
      let nd' :=
        {| title := title';
           exec_func := EnterNextLevel self;
           args := args nd;
           kwargs := kwargs nd;
           menu_config := menu_config nd;
           children := children nd ++ [id];
           _is_root := _is_root nd |} in
      Some (<[self := nd']> h ++ [option], id)
  end.

Definition add_return_option (h : heap) (self : node_id) : option heap :=
  fst <$> add_option h self "[Back]" (Some (ReturnPreviousLevel self))
            None None.

Definition add_exit_option (h : heap) (self : node_id) : option heap :=
  fst <$> add_option h self "[Exit]" (Some (QuitingLevel self)) None None.

Definition start_loop (fuel : nat) (h : heap) (self : node_id) : M unit :=
  let* nd := get_node h self in
  if _is_root nd
  then _enter_next_level fuel h self ;;
       print "Exit CliHelper. Bye."
  else print "Current option is not the root option. Exit.".

(** ** [CliHelper] *)

Definition version : Z * Z * Z := (2, 0, 20231219).

(** The constructor of the root: the heap with the new object, and its
    name. *)
Definition CliHelper (h : heap) (menu_config_ : option MenuConfig)
    (show_version : bool) : M (heap * node_id) :=
  let root := new_node "Main Menu" None None None menu_config_ true in
  (if show_version
   then print ("CliHelper v" +:+ Py.str (version.1.1) +:+ "."
               +:+ Py.str (version.1.2) +:+ " (" +:+ Py.str (version.2)
               +:+ ")" +:+ nl)
   else ret tt) ;;
  ret (h ++ [root], length h).

(** ** The menu as section 4.2 of the specification words it *)

Module Spec.

(** [n] copies of a character. *)
Fixpoint fill (n : nat) (c : ascii) : string :=
  match n with
  | O => EmptyString
  | S n' => String c (fill n' c)
  end.

(** The decimal numeral of a count. *)
Definition numeral (n : nat) : string := Py.str (Z.of_nat n).

Definition right_aligned (s : string) (width : nat) : string :=
  fill (width - String.length s) " " +:+ s.

Definition left_aligned (s : string) (width : nat) : string :=
  s +:+ fill (width - String.length s) " ".

Section Layout.

Variables (leftPadding rightPadding topPadding bottomPadding : nat).
Variables (edge wall : ascii) (serialMarker : string).
Variable titles : list string.

Definition maxTitleWidth : nat := list_max (map String.length titles).
Definition maxSerialWidth : nat := String.length (numeral (length titles)).
Definition contentWidth : nat :=
  (maxSerialWidth + String.length serialMarker + maxTitleWidth)%nat.
Definition interiorWidth : nat :=
  (leftPadding + contentWidth + rightPadding)%nat.

Definition border : string := fill (interiorWidth + 2) edge.

Definition blank : string :=
  String edge (fill interiorWidth wall +:+ String edge EmptyString).

(** The line of the title numbered [serial]. *)
Definition entry (serial : nat) (t : string) : string :=
  String edge
    (fill leftPadding wall +:+ right_aligned (numeral serial) maxSerialWidth
     +:+ serialMarker +:+ left_aligned t maxTitleWidth
     +:+ fill rightPadding wall +:+ String edge EmptyString).

(** The lines of the titles [ts], numbered from [serial] on. *)
Fixpoint entries (serial : nat) (ts : list string) : list string :=
  match ts with
  | [] => []
  | t :: rest => entry serial t :: entries (S serial) rest
  end.

Definition render : list string :=
  [border] ++ repeat blank topPadding ++ entries 1 titles
  ++ repeat blank bottomPadding ++ [border].

End Layout.

(** Lines as they go to the console. *)
Fixpoint unlines (l : list string) : string :=
  match l with
  | [] => EmptyString
  | x :: rest => x +:+ nl +:+ unlines rest
  end.

End Spec.

(** The text of the menu. *)
Definition menu_text (l r t b : nat) (e f : ascii) (sm : string)
    (titles : list string) : string :=
  Spec.unlines (Spec.render l r t b e f sm titles).

(** A configuration that sets every key. *)
Definition full_config (l r t b : Z) (ec wc sm : string) (again : bool)
    : MenuConfig :=
  {| left_padding := Some l; right_padding := Some r;
     top_padding := Some t; bottom_padding := Some b;
     edge_char := Some ec; wall_char := Some wc;
     serial_marker := Some sm; draw_menu_again := Some again |}.

(** The children of [nd] are objects of the heap, titled [titles] in
    order. *)
Definition child_titles (h : heap) (nd : OptionNode) (titles : list string)
    : Prop :=
  Forall2 (fun c t => exists cn, h !! c = Some cn /\ title cn = t)
    (children nd) titles.

(** The superscript two, U+00B2: a digit to [str.isdigit], and no digit
    to [int]. *)
Definition superscript_two : string :=
  String (ascii_of_nat 178) EmptyString.

(** ** The calls of [test.py] *)

(** [lambda x: x.isdigit() and 1 < int(x) < 10] *)
Definition digit_between_1_and_10 (x : string) : result bool :=
  if Py.isdigit x
  then match Py.int x with
       | Some n => Ok ((1 <? n) && (n <? 10))
       | None => Err ValueError
       end
  else Ok false.

(** The keyword arguments of the call in [test_req]. *)
Definition test_req_options : options :=
  {| has_default_val := true; default_val := "4";
     has_quit_val := true; quit_val := "q";
     check_func := Some digit_between_1_and_10; ask_again := false;
     need_confirm := true |}.

(** [test_req]'s options, with [ask_again] left at its default. *)
Definition test_req_retry_options : options :=
  {| has_default_val := true; default_val := "4";
     has_quit_val := true; quit_val := "q";
     check_func := Some digit_between_1_and_10; ask_again := true;
     need_confirm := true |}.

(** [open_file] and [new_folder] of [test.py]. *)
Definition open_file : action :=
  HostFunc (fun args kwargs =>
    match args, kwargs with
    | [], [] => print "File Opened" ;; ret VNone
    | _, _ => raise TypeError
    end).

Definition new_folder : action :=
  HostFunc (fun args kwargs =>
    match args, kwargs with
    | [name], [] => print ("Folder [" +:+ name +:+ "] created") ;; ret VNone
    | [], [(key, name)] =>
        if String.eqb key "name"
        then print ("Folder [" +:+ name +:+ "] created") ;; ret VNone
        else raise TypeError
    | _, _ => raise TypeError
    end).

Definition of_reference {A} (o : option A) : M A :=
  match o with
  | Some a => ret a
  | None => fun _ => Dangling
  end.

(** The tree that [test_helper] builds, over a given configuration. *)
Definition test_tree (menu_config_ : option MenuConfig)
    : M (heap * node_id) :=
  let* '(h, ch) := CliHelper [] menu_config_ true in
  let* '(h, n) := of_reference (add_option h ch "New" None None None) in
  let* h := of_reference (add_return_option h n) in
  let* '(h, _) := of_reference (add_option h n "New File" None None None) in
  let* '(h, _) := of_reference
                    (add_option h n "New Folder" (Some new_folder)
                       (Some ["Temp"]) None) in
  let* h := of_reference (add_exit_option h n) in
  let* '(h, _) := of_reference
                    (add_option h ch "Open File" (Some open_file) None None) in
  let* '(h, _) := of_reference (add_option h ch "Save" None None None) in
  let* h := of_reference (add_exit_option h ch) in
  ret (h, ch).

(** [{"right_padding": 20, "serial_marker": "->"}] *)
Definition test_config : MenuConfig :=
  {| left_padding := None; right_padding := Some 20;
     top_padding := None; bottom_padding := None;
     edge_char := None; wall_char := None;
     serial_marker := Some "->"; draw_menu_again := None |}.

(** [test_helper], with the configuration it passes to [CliHelper] (or
    [None], for the call [CliHelper()] of its comment). *)
Definition test_helper (fuel : nat) (menu_config_ : option MenuConfig)
    : M unit :=
  let* '(h, ch) := test_tree menu_config_ in
  start_loop fuel h ch.

(** The heap [test_tree] leaves: the root, [New] and its four options,
    then the three other options of the root. *)
Definition menu_node (title_ : string) (exec_func_ : action)
    (args_ : list string) (cfg : MenuConfig) (children_ : list node_id)
    (root : bool) : OptionNode :=
  {| title := title_; exec_func := exec_func_; args := args_; kwargs := [];
     menu_config := cfg; children := children_; _is_root := root |}.

Definition menu_heap (cfg : MenuConfig) : heap :=
  [ menu_node "Main Menu [d]" (EnterNextLevel 0) [] cfg [1; 6; 7; 8]%nat true;
    menu_node "New [d]" (EnterNextLevel 1) [] cfg [2; 3; 4; 5]%nat false;
    menu_node "[Back]" (ReturnPreviousLevel 1) [] cfg [] false;
    menu_node "New File" DefaultFunc [] cfg [] false;
    menu_node "New Folder" new_folder ["Temp"] cfg [] false;
    menu_node "[Exit]" (QuitingLevel 1) [] cfg [] false;
    menu_node "Open File" open_file [] cfg [] false;
    menu_node "Save" DefaultFunc [] cfg [] false;
    menu_node "[Exit]" (QuitingLevel 0) [] cfg [] false ].

(** The heap after
    [ch = CliHelper(); n = ch.add_option("New Folder", new_folder, ("Temp",));
    n.add_option("Here")]. *)
Definition folder_heap : heap :=
  [ menu_node "Main Menu [d]" (EnterNextLevel 0) [] DEFAULT_MENU_CONFIG
      [1%nat] true;
    menu_node "New Folder [d]" (EnterNextLevel 1) ["Temp"]
      DEFAULT_MENU_CONFIG [2%nat] false;
    menu_node "Here" DefaultFunc [] DEFAULT_MENU_CONFIG [] false ].

Definition banner : string :=
  "CliHelper v2.0 (20231219)" +:+ nl +:+ nl.

(** ** Trees under construction *)

(** [h'] comes from [h] by calls of [add_option], on any nodes, in any
    number. *)
Inductive add_options : heap -> heap -> Prop :=
| add_options_done h : add_options h h
| add_options_call h h1 h2 self title_ exec_func_ args_ kwargs_ id :
    add_option h self title_ exec_func_ args_ kwargs_ = Some (h1, id) ->
    add_options h1 h2 ->
    add_options h h2.

(** The title a node carries once it has been given a child. *)
Definition marked (t : string) : string :=
  if Py.endswith t " [d]" then t else t +:+ " [d]".

(** ** Statements that the code is compared with *)


(** The quit check reads the line as typed: a line equal to [quit_val]
    always gives [("", False)]. *)
Definition quit_on_raw_line : Prop :=
  forall fuel prompt_msg err_msg o line rest out,
    has_quit_val o = true ->
    line = quit_val o ->
    exists w',
      request_input (S fuel) prompt_msg err_msg o (World (line :: rest) out)
      = Done ("", false) w'.

(** Whatever title a node was created with, it ends up with that title
    and one more [ [d]] once it has children. *)
Definition marker_always_appended : Prop :=
  forall h h' i nd nd',
    add_options h h' ->
    h !! i = Some nd ->
    children nd = [] ->
    h' !! i = Some nd' ->
    children nd' <> [] ->
    exec_func nd' = EnterNextLevel i /\ title nd' = title nd +:+ " [d]".

(** ** Heaps the host can build *)

(** What the host can reach from an empty heap: roots made by [CliHelper]
    and options added by [add_option]. *)
Inductive built : heap -> Prop :=
| built_nothing : built []
| built_root h menu_config_ show_version w h' ch w' :
    built h ->
    CliHelper h menu_config_ show_version w = Done (h', ch) w' ->
    built h'
| built_option h self title_ exec_func_ args_ kwargs_ h' id :
    built h ->
    add_option h self title_ exec_func_ args_ kwargs_ = Some (h', id) ->
    built h'.

(** The children of every node are objects of the heap, created after
    the node. *)
Definition well_formed (h : heap) : Prop :=
  forall (i : node_id) nd,
    h !! i = Some nd ->
    Forall (fun c => (i < c < length h)%nat) (children nd).

(** The first key that [_draw_menu] reads and does not find. *)
Definition first_missing_key (cfg : MenuConfig) : option string :=
  match left_padding cfg with
  | None => Some "left_padding"
  | Some _ =>
  match right_padding cfg with
  | None => Some "right_padding"
  | Some _ =>
  match top_padding cfg with
  | None => Some "top_padding"
  | Some _ =>
  match bottom_padding cfg with
  | None => Some "bottom_padding"
  | Some _ =>
  match edge_char cfg with
  | None => Some "edge_char"
  | Some _ =>
  match wall_char cfg with
  | None => Some "wall_char"
  | Some _ =>
  match serial_marker cfg with
  | None => Some "serial_marker"
  | Some _ => None
  end end end end end end end.

(** ** Lines of the console *)

Definition is_line_feed (c : ascii) : bool := Ascii.eqb c (ascii_of_nat 10).

(** The lines of a text: what stands before each line feed, and what
    stands after the last one if anything does. [cur] is the line being
    read. *)
Fixpoint lines_from (cur : string) (s : string) : list string :=
  match s with
  | EmptyString =>
      match cur with
      | EmptyString => []
      | _ => [cur]
      end
  | String c s' =>
      if is_line_feed c then cur :: lines_from "" s'
      else lines_from (cur +:+ String c "") s'
  end.

Definition printed_lines (s : string) : list string := lines_from "" s.

(** No line feed in the string. *)
Fixpoint no_line_feed (s : string) : bool :=
  match s with
  | EmptyString => true
  | String c s' => negb (is_line_feed c) && no_line_feed s'
  end.

(** ** Heaps on which nothing is set up to fail *)

(** The heap after [ch = CliHelper(); ch.add_option("Report", None,
    ("x",))]: an option without a function, with an argument. *)
Definition report_heap : heap :=
  [ menu_node "Main Menu [d]" (EnterNextLevel 0) [] DEFAULT_MENU_CONFIG
      [1%nat] true;
    menu_node "Report" DefaultFunc ["x"] DEFAULT_MENU_CONFIG [] false ].

(** A line that [int] converts whenever [str.isdigit] holds of it: the
    lambda of [_request_option] does not raise on it. *)
Definition convertible (line : string) : Prop :=
  Py.isdigit line = true -> Py.int line <> None.

(** Sizes with which the repetitions of [_draw_menu] fit an index:
    paddings below 2^31, a marker shorter than that, an edge and a fill
    of at most 2^16 characters. *)
Definition modest_padding (p : option Z) : Prop :=
  match p with
  | Some z => z < 2 ^ 31
  | None => True
  end.

Definition modest_text (bound : Z) (s : option string) : Prop :=
  match s with
  | Some x => Py.len x <= bound
  | None => True
  end.

Definition modest (cfg : MenuConfig) : Prop :=
  modest_padding (left_padding cfg) /\ modest_padding (right_padding cfg)
  /\ modest_padding (top_padding cfg) /\ modest_padding (bottom_padding cfg)
  /\ modest_text (2 ^ 16) (edge_char cfg)
  /\ modest_text (2 ^ 16) (wall_char cfg)
  /\ modest_text (2 ^ 31) (serial_marker cfg).

(** A heap on which nothing is set up to fail: every configuration sets
    every key, to sizes that fit; children are objects of the heap, with
    titles of a size that fits; the methods of the class are bound
    without arguments, the traversal only to the node itself and only
    when it has children; and host functions return, having at most taken
    lines from the front of the input. *)
Definition sound_node (h : heap) (i : node_id) (nd : OptionNode) : Prop :=
  first_missing_key (menu_config nd) = None
  /\ is_Some (draw_menu_again (menu_config nd))
  /\ modest (menu_config nd)
  /\ Py.len (title nd) < 2 ^ 31
  /\ Forall (fun c : node_id => is_Some (h !! c)) (children nd)
  /\ match exec_func nd with
     | HostFunc f =>
         forall w, exists v w' k,
           f (args nd) (kwargs nd) w = Done v w'
           /\ stdin w' = drop k (stdin w)
     | EnterNextLevel j =>
         j = i /\ children nd <> [] /\ args nd = [] /\ kwargs nd = []
     | _ => args nd = [] /\ kwargs nd = []
     end.

Definition sound_heap (h : heap) : Prop :=
  forall (i : node_id) nd, h !! i = Some nd -> sound_node h i nd.

(** How a session on the input [inp] ends, under the bound [fuel]: it
    returns, having only taken lines from the front of the input, or it
    raises [EOFError] at the end of the input; the bound runs out only
    when it is not two above the number of lines. *)
Definition ends_well {A} (fuel : nat) (inp : list string) (o : outcome A)
    : Prop :=
  match o with
  | Done _ w' => exists k, stdin w' = drop k inp
  | Raised e w' => e = EOFError /\ stdin w' = []
  | OutOfFuel => (fuel < length inp + 2)%nat
  | Dangling => False
  end.

(** * Properties *)

(** ** Strings *)

Lemma append_cons (x : ascii) (a b : string) :
  String x a +:+ b = String x (a +:+ b).
Proof. reflexivity. Qed.

Lemma append_assoc (a b c : string) : (a +:+ b) +:+ c = a +:+ b +:+ c.
Proof.
  induction a as [|x a IH]; [reflexivity|].
  rewrite !append_cons. now rewrite IH.
Qed.

Lemma append_nil_r (a : string) : a +:+ "" = a.
Proof.
  induction a as [|x a IH]; [reflexivity|].
  rewrite append_cons. now rewrite IH.
Qed.

Lemma length_append (a b : string) :
  String.length (a +:+ b) = (String.length a + String.length b)%nat.
Proof.
  induction a as [|x a IH]; [reflexivity|].
  rewrite append_cons. simpl. now rewrite IH.
Qed.

Lemma append_nil_l (a : string) : "" +:+ a = a.
Proof. reflexivity. Qed.

Create Rewrite HintDb str.
#[local] Hint Rewrite append_assoc append_nil_r append_nil_l : str.
Create Rewrite HintDb strc.
#[local] Hint Rewrite append_assoc append_nil_r append_nil_l append_cons
  : strc.

(** Unfold the console primitives and put the text printed in normal
    form. *)
Ltac io :=
  repeat (progress (unfold bind, ret, raise, print, print_, input, of_option,
                      of_result;
                    simpl; autorewrite with str)).

Lemma bind_Done {A B} (m : M A) (k : A -> M B) w a w' :
  m w = Done a w' -> bind m k w = k a w'.
Proof. intros H. unfold bind. now rewrite H. Qed.

Lemma comprehension_cons {A B} (x : A) rest (f : A -> M B) :
  comprehension (x :: rest) f
  = (let* y := f x in
     let* ys := comprehension rest f in
     ret (y :: ys)).
Proof. reflexivity. Qed.

Lemma for_each_cons {A} (x : A) rest (body : A -> M unit) :
  for_each (x :: rest) body = (body x ;; for_each rest body).
Proof. reflexivity. Qed.

Lemma get_node_found h id nd w : h !! id = Some nd -> get_node h id w = Done nd w.
Proof. intros H. unfold get_node. now rewrite H. Qed.

(** ** [request_input] *)

Section RequestInput.

Variables (prompt_msg err_msg : string) (o : options).

(** A round of the loop, once a line has been typed. *)
Lemma request_input_round fuel line rest out :
  request_input (S fuel) prompt_msg err_msg o (World (line :: rest) out) =
  let v := submitted o line in
  let w := World rest (out +:+ prompt_text prompt_msg o) in
  if has_quit_val o && String.eqb v (quit_val o)
  then Done ("", false) (World rest (stdout w +:+ "Quit." +:+ nl))
  else (let* rejected := confirmation (request_input fuel) o v in
        if (rejected : bool)
        then request_input fuel prompt_msg err_msg o
        else validation (request_input fuel prompt_msg err_msg o) err_msg o v) w.
Proof.
  unfold submitted, prompt_text. simpl.
  destruct (has_default_val o); io;
    destruct (has_quit_val o && _); io; reflexivity.
Qed.

(** At the end of the input, the call prints its prompt and [input]
    raises. *)
Lemma request_input_eof fuel out :
  request_input (S fuel) prompt_msg err_msg o (World [] out) =
  Raised EOFError (World [] (out +:+ prompt_text prompt_msg o)).
Proof.
  unfold prompt_text. simpl.
  destruct (has_default_val o); io; reflexivity.
Qed.

End RequestInput.

Lemma str_or_diag (s : string) : Py.str_or s s = s.
Proof. destruct s; reflexivity. Qed.

Lemma submitted_raw (o : options) (line : string) :
  has_default_val o = false \/ line <> "" -> submitted o line = line.
Proof.
  unfold submitted. intros [-> | Hne]; [reflexivity|].
  destruct (has_default_val o); [|reflexivity].
  destruct line; [congruence | reflexivity].
Qed.


(** C3, amended. With [has_quit_val] set, a submitted value equal to
    [quit_val] makes [request_input] print [Quit.] and return [("", False)]
    at once: one line is consumed, nothing is confirmed and nothing is
    validated, whatever the other options are. The submitted value is the
    line typed, with [default_val] in its place when [has_default_val] is
    set and the line is empty; so a typed line equal to [quit_val] quits
    whenever it is not empty or there is no default. *)
Theorem quit_value_returns fuel prompt_msg err_msg o line rest out :
  has_quit_val o = true ->
  submitted o line = quit_val o
  \/ (line = quit_val o /\ (has_default_val o = false \/ line <> "")) ->
  request_input (S fuel) prompt_msg err_msg o (World (line :: rest) out)
  = Done ("", false)
      (World rest (out +:+ prompt_text prompt_msg o +:+ "Quit." +:+ nl)).
Proof.
  intros Hq Hv.
  assert (Hs : submitted o line = quit_val o).
  { destruct Hv as [Hv | [Hl Hraw]]; [exact Hv|].
    now rewrite submitted_raw. }
  rewrite request_input_round. cbv zeta.
  rewrite Hq, Hs, String.eqb_refl. simpl. now rewrite append_assoc.
Qed.

Lemma quit_value_returns_witness :
  request_input 1 "Name" "Invalid value."
    {| has_default_val := true; default_val := "q";
       has_quit_val := true; quit_val := "q";
       check_func := Some (fun x => Ok (Py.isdigit x)); ask_again := true;
       need_confirm := true |}
    (World [""; "y"] "")
  = Done ("", false)
      (World ["y"] ("Name (Default [q]): Quit." +:+ nl)).
Proof.
  apply (quit_value_returns 0 "Name" "Invalid value."
           {| has_default_val := true; default_val := "q";
              has_quit_val := true; quit_val := "q";
              check_func := Some (fun x => Ok (Py.isdigit x)); ask_again := true;
              need_confirm := true |} "" ["y"] "").
  - reflexivity.
  - left. reflexivity.
Defined.

(** C3 as stated fails: with an empty [quit_val] and a default, the empty
    line is replaced by the default before the quit check and is accepted. *)
Lemma quit_on_raw_line_fails : ~ quit_on_raw_line.
Proof.
  intros H.
  destruct (H 0%nat "Name" "Invalid value."
              {| has_default_val := true; default_val := "4";
                 has_quit_val := true; quit_val := "";
                 check_func := None; ask_again := true;
                 need_confirm := false |} "" [] "" eq_refl eq_refl)
    as [w' Hw'].
  vm_compute in Hw'. discriminate Hw'.
Qed.

(** The answer to the confirmation prompt, once the validator accepts it:
    the value is turned down exactly when the answer, as typed, is [n] or
    [no]. *)
Lemma confirmation_answer fuel o v a rest out :
  need_confirm o = true ->
  confirm_check a = true ->
  confirmation (request_input (S fuel)) o v (World (a :: rest) out)
  = Done (Py.str_in a ["n"; "no"])
      (World rest (out +:+ confirm_prompt v +:+ ": ")).
Proof.
  intros Hn Ha. unfold confirmation. rewrite Hn. unfold bind at 1.
  rewrite request_input_round. cbv zeta.
  unfold submitted, prompt_text, confirmation, validation. simpl.
  unfold bind, of_result, ret. rewrite Ha. reflexivity.
Qed.

(** What the validation step comes to, by the answer of the validator. *)
Lemma validation_answer again err_msg o f v w :
  check_func o = Some f ->
  validation again err_msg o v w
  = match f v with
    | Ok true => Done (v, true) w
    | Ok false =>
        if ask_again o
        then again (World (stdin w)
                      (stdout w +:+ err_msg +:+ " " +:+ "Please enter again."
                       +:+ nl))
        else Done ("", false)
               (World (stdin w) (stdout w +:+ err_msg +:+ " " +:+ nl))
    | Err e => Raised e w
    end.
Proof.
  intros Hf. unfold validation. rewrite Hf.
  destruct (f v) as [[|]|e]; [reflexivity | | reflexivity].
  destruct (ask_again o); io; reflexivity.
Qed.

(** C7. With [has_default_val] set, an empty line is the same to
    [request_input] as [default_val] typed out, and the default then goes
    through the quit check, the confirmation and the validation as any
    typed value does.
    - The quit check: a default equal to the quit value makes the call
      print [Quit.] and return [("", False)].
    - The confirmation: with [need_confirm], the nested request shows the
      default and reads the answer; on [n] or [no] the round starts again
      (and raises [EOFError] at its prompt when the input ends there), on
      another answer that the nested request accepts the default goes on
      to validation.
    - The validation, on the console the confirmation step leaves: a
      default that the validator accepts (or no validator) gives
      [(default_val, True)]; a default it refuses gives [("", False)]
      after the error message without [ask_again], and another round
      after [Please enter again.] with it; an exception of the validator
      is raised.
    In particular, when the default is not the quit value, no confirmation
    is asked for and the validator (if any) accepts it, the call returns
    [(default_val, True)]. *)
Theorem default_value_submitted fuel prompt_msg err_msg o rest out :
  has_default_val o = true ->
  let d := default_val o in
  let shown := out +:+ prompt_text prompt_msg o in
  request_input fuel prompt_msg err_msg o (World ("" :: rest) out)
  = request_input fuel prompt_msg err_msg o (World (d :: rest) out)
  /\ (has_quit_val o && String.eqb d (quit_val o) = false ->
      need_confirm o = false ->
      (forall f, check_func o = Some f -> f d = Ok true) ->
      request_input (S fuel) prompt_msg err_msg o (World ("" :: rest) out)
      = Done (d, true) (World rest shown))
  /\ (has_quit_val o = true ->
      d = quit_val o ->
      request_input (S fuel) prompt_msg err_msg o (World ("" :: rest) out)
      = Done ("", false) (World rest (shown +:+ "Quit." +:+ nl)))
  /\ (has_quit_val o && String.eqb d (quit_val o) = false ->
      need_confirm o = true ->
      forall a lines,
        rest = a :: lines ->
        confirm_check a = true ->
        Py.str_in a ["n"; "no"] = true ->
        request_input (S (S fuel)) prompt_msg err_msg o
          (World ("" :: rest) out)
        = request_input (S fuel) prompt_msg err_msg o
            (World lines (shown +:+ confirm_prompt d +:+ ": "))
        /\ (lines = [] ->
            request_input (S (S fuel)) prompt_msg err_msg o
              (World ("" :: rest) out)
            = Raised EOFError
                (World []
                   (shown +:+ confirm_prompt d +:+ ": "
                    +:+ prompt_text prompt_msg o))))
  /\ (has_quit_val o && String.eqb d (quit_val o) = false ->
      forall lines asked,
        (need_confirm o = false /\ lines = rest /\ asked = shown)
        \/ (need_confirm o = true
            /\ exists a,
                 rest = a :: lines
                 /\ confirm_check a = true
                 /\ Py.str_in a ["n"; "no"] = false
                 /\ asked = shown +:+ confirm_prompt d +:+ ": ") ->
        ((forall f, check_func o = Some f -> f d = Ok true) ->
         request_input (S (S fuel)) prompt_msg err_msg o
           (World ("" :: rest) out)
         = Done (d, true) (World lines asked))
        /\ (forall f,
              check_func o = Some f -> f d = Ok false ->
              ask_again o = false ->
              request_input (S (S fuel)) prompt_msg err_msg o
                (World ("" :: rest) out)
              = Done ("", false)
                  (World lines (asked +:+ err_msg +:+ " " +:+ nl)))
        /\ (forall f,
              check_func o = Some f -> f d = Ok false ->
              ask_again o = true ->
              request_input (S (S fuel)) prompt_msg err_msg o
                (World ("" :: rest) out)
              = request_input (S fuel) prompt_msg err_msg o
                  (World lines
                     (asked +:+ err_msg +:+ " " +:+ "Please enter again."
                      +:+ nl))
              /\ (lines = [] ->
                  request_input (S (S fuel)) prompt_msg err_msg o
                    (World ("" :: rest) out)
                  = Raised EOFError
                      (World []
                         (asked +:+ err_msg +:+ " "
                          +:+ "Please enter again." +:+ nl
                          +:+ prompt_text prompt_msg o))))
        /\ (forall f e,
              check_func o = Some f -> f d = Err e ->
              request_input (S (S fuel)) prompt_msg err_msg o
                (World ("" :: rest) out)
              = Raised e (World lines asked))).
Proof.
  intros Hd d shown.
  assert (Hs : submitted o "" = d).
  { unfold submitted. now rewrite Hd. }
  split; [|split; [|split; [|split]]].
  - destruct fuel as [|fuel]; [reflexivity|].
    rewrite !request_input_round. cbv zeta.
    rewrite Hs. unfold submitted. rewrite Hd. subst d.
    now rewrite str_or_diag.
  - intros Hq Hc Hf.
    rewrite request_input_round. cbv zeta.
    rewrite Hs, Hq. unfold confirmation, validation. rewrite Hc.
    destruct (check_func o) as [f|] eqn:Ef; [|reflexivity].
    unfold bind, ret. now rewrite (Hf f eq_refl).
  - intros Hq Heq.
    rewrite request_input_round. cbv zeta.
    rewrite Hs, Hq, Heq, String.eqb_refl. simpl.
    subst shown. now rewrite append_assoc.
  - intros Hq Hc a lines -> Ha Hno.
    assert (Hround :
      request_input (S (S fuel)) prompt_msg err_msg o
        (World ("" :: a :: lines) out)
      = request_input (S fuel) prompt_msg err_msg o
          (World lines (shown +:+ confirm_prompt d +:+ ": "))).
    { rewrite request_input_round. cbv zeta. rewrite Hs, Hq.
      erewrite bind_Done by (apply confirmation_answer; assumption).
      now rewrite Hno. }
    split; [exact Hround|].
    intros ->. rewrite Hround, request_input_eof.
    now rewrite !append_assoc.
  - intros Hq lines asked Hstep.
    assert (Hround :
      request_input (S (S fuel)) prompt_msg err_msg o
        (World ("" :: rest) out)
      = validation (request_input (S fuel) prompt_msg err_msg o) err_msg o
          d (World lines asked)).
    { rewrite request_input_round. cbv zeta. rewrite Hs, Hq.
      destruct Hstep as [(Hc & -> & ->) | (Hc & a & -> & Ha & Hno & ->)].
      - unfold confirmation. rewrite Hc. reflexivity.
      - erewrite bind_Done by (apply confirmation_answer; assumption).
        now rewrite Hno. }
    rewrite Hround. split; [|split; [|split]].
    + intros Hf. unfold validation.
      destruct (check_func o) as [f|] eqn:Ef; [|reflexivity].
      unfold bind, ret. now rewrite (Hf f eq_refl).
    + intros f Hf Hv Hask.
      now rewrite (validation_answer _ _ _ f) by exact Hf; rewrite Hv, Hask.
    + intros f Hf Hv Hask.
      rewrite (validation_answer _ _ _ f) by exact Hf.
      rewrite Hv, Hask. cbn [stdin stdout]. split; [reflexivity|].
      intros ->. rewrite request_input_eof.
      now rewrite !append_assoc.
    + intros f e Hf Hv.
      now rewrite (validation_answer _ _ _ f) by exact Hf; rewrite Hv.
Qed.

Lemma default_value_submitted_witness :
  request_input 1 "Enter a number" "Invalid value."
    {| has_default_val := true; default_val := "4";
       has_quit_val := true; quit_val := "q";
       check_func := Some digit_between_1_and_10; ask_again := false;
       need_confirm := false |}
    (World [""] "")
  = Done ("4", true) (World [] "Enter a number (Default [4]): ")
  /\ request_input 1 "Enter a number" "Invalid value."
       {| has_default_val := true; default_val := "q";
          has_quit_val := true; quit_val := "q";
          check_func := Some digit_between_1_and_10; ask_again := false;
          need_confirm := true |}
       (World [""; "y"] "")
     = Done ("", false)
         (World ["y"] ("Enter a number (Default [q]): Quit." +:+ nl))
  /\ request_input 2 "Enter a number" "Invalid value." test_req_options
       (World [""; "y"] "")
     = Done ("4", true)
         (World []
            ("Enter a number (Default [4]): "
             +:+ "Do you confirm the value [4] (yes/no): "))
  /\ request_input 2 "Enter a number" "Invalid value." test_req_options
       (World [""; "no"] "")
     = Raised EOFError
         (World []
            ("Enter a number (Default [4]): "
             +:+ "Do you confirm the value [4] (yes/no): "
             +:+ "Enter a number (Default [4]): "))
  /\ request_input 2 "Enter a number" "Invalid value."
       {| has_default_val := true; default_val := "12";
          has_quit_val := true; quit_val := "q";
          check_func := Some digit_between_1_and_10; ask_again := false;
          need_confirm := true |}
       (World [""; "yes"; "5"] "")
     = Done ("", false)
         (World ["5"]
            ("Enter a number (Default [12]): "
             +:+ "Do you confirm the value [12] (yes/no): "
             +:+ "Invalid value. " +:+ nl))
  /\ request_input 2 "Enter a number" "Invalid value."
       {| has_default_val := true; default_val := superscript_two;
          has_quit_val := true; quit_val := "q";
          check_func := Some digit_between_1_and_10; ask_again := false;
          need_confirm := false |}
       (World [""] "")
     = Raised ValueError
         (World []
            ("Enter a number (Default [" +:+ superscript_two +:+ "]): ")).
Proof.
  split; [|split; [|split; [|split; [|split]]]].
  - refine (proj1 (proj2 (default_value_submitted 0 "Enter a number"
             "Invalid value."
             {| has_default_val := true; default_val := "4";
                has_quit_val := true; quit_val := "q";
                check_func := Some digit_between_1_and_10;
                ask_again := false; need_confirm := false |} [] ""
             eq_refl)) _ _ _).
    + reflexivity.
    + reflexivity.
    + intros f Hf. injection Hf as <-. reflexivity.
  - refine (proj1 (proj2 (proj2 (default_value_submitted 0 "Enter a number"
             "Invalid value."
             {| has_default_val := true; default_val := "q";
                has_quit_val := true; quit_val := "q";
                check_func := Some digit_between_1_and_10;
                ask_again := false; need_confirm := true |} ["y"] ""
             eq_refl))) _ _); reflexivity.
  - refine (proj1 (proj2 (proj2 (proj2 (proj2 (default_value_submitted 0
             "Enter a number" "Invalid value." test_req_options ["y"] ""
             eq_refl)))) eq_refl []
             ("Enter a number (Default [4]): "
              +:+ "Do you confirm the value [4] (yes/no): ") _) _).
    + right. split; [reflexivity|]. exists "y". repeat split.
    + intros f Hf. injection Hf as <-. reflexivity.
  - refine (proj2 (proj1 (proj2 (proj2 (proj2 (default_value_submitted 0
             "Enter a number" "Invalid value." test_req_options ["no"] ""
             eq_refl)))) eq_refl eq_refl "no" [] eq_refl eq_refl eq_refl)
             eq_refl).
  - refine (proj1 (proj2 (proj2 (proj2 (proj2 (proj2 (default_value_submitted
             0 "Enter a number" "Invalid value."
             {| has_default_val := true; default_val := "12";
                has_quit_val := true; quit_val := "q";
                check_func := Some digit_between_1_and_10;
                ask_again := false; need_confirm := true |}
             ["yes"; "5"] "" eq_refl)))) eq_refl ["5"]
             ("Enter a number (Default [12]): "
              +:+ "Do you confirm the value [12] (yes/no): ") _))
             digit_between_1_and_10 eq_refl eq_refl eq_refl).
    right. split; [reflexivity|]. exists "yes". repeat split.
  - refine (proj2 (proj2 (proj2 (proj2 (proj2 (proj2 (proj2
             (default_value_submitted
             0 "Enter a number" "Invalid value."
             {| has_default_val := true; default_val := superscript_two;
                has_quit_val := true; quit_val := "q";
                check_func := Some digit_between_1_and_10;
                ask_again := false; need_confirm := false |}
             [] "" eq_refl)))) eq_refl []
             ("Enter a number (Default [" +:+ superscript_two +:+ "]): ")
             _))) digit_between_1_and_10 ValueError eq_refl eq_refl).
    left. repeat split.
Defined.




(** C2, the code at the failing input. The validator of the confirmation
    prompt accepts [NO], but the answer is then compared with [n] and [no]
    as typed: the value is not discarded, it goes on to validation and is
    returned as accepted. *)
Theorem uppercase_no_confirms :
  confirm_check "NO" = true
  /\ request_input 2 "Enter a number" "Invalid value." test_req_options
       (World ["5"; "NO"] "")
     = Done ("5", true)
         (World []
            ("Enter a number (Default [4]): "
             +:+ "Do you confirm the value [5] (yes/no): "))
  /\ request_input 3 "Enter a number" "Invalid value." test_req_options
       (World ["5"; "no"; "q"] "")
     = Done ("", false)
         (World []
            ("Enter a number (Default [4]): "
             +:+ "Do you confirm the value [5] (yes/no): "
             +:+ "Enter a number (Default [4]): Quit." +:+ nl)).
Proof. repeat split; reflexivity. Qed.

(** ** [_request_option] *)

(** What the validator of the choice request accepts. *)
Lemma option_check_accepts n x :
  option_check n x = Ok true ->
  Py.isdigit x = true /\ exists k, Py.int x = Some k /\ 1 <= k <= n.
Proof.
  unfold option_check. intros H.
  destruct (Py.isdigit x); [|discriminate].
  destruct (Py.int x) as [k|]; [|discriminate].
  injection H as H. apply andb_prop in H as [H1 H2].
  apply Z.leb_le in H1, H2. eauto.
Qed.

(** The validator of the choice request raises on the digit strings that
    [int] does not convert, and on nothing else. *)
Lemma option_check_raises n x e :
  option_check n x = Err e <->
  e = ValueError /\ Py.isdigit x = true /\ Py.int x = None.
Proof.
  unfold option_check.
  destruct (Py.isdigit x); [|split; [discriminate | intros (_ & ? & _); discriminate]].
  destruct (Py.int x) as [k|].
  - split; [discriminate | intros (_ & _ & ?); discriminate].
  - split; [intros [= <-]; auto | intros (-> & _); reflexivity].
Qed.

(** The choice request reads one line, and accepts it, refuses it or
    raises as the check does. *)
Lemma request_choice fuel n line rest out :
  request_input (S fuel) option_prompt "No such option." (option_options n)
    (World (line :: rest) out)
  = match option_check n line with
    | Ok true => Done (line, true) (World rest (out +:+ option_prompt +:+ ": "))
    | Ok false =>
        Done ("", false)
          (World rest (out +:+ option_prompt +:+ ": "
                       +:+ "No such option. " +:+ nl))
    | Err e => Raised e (World rest (out +:+ option_prompt +:+ ": "))
    end.
Proof.
  rewrite request_input_round. cbv zeta.
  unfold submitted, prompt_text, confirmation, validation. simpl.
  destruct (option_check n line) as [[|]|e]; io; reflexivity.
Qed.

(** Indexing inside the bounds. *)
Lemma index_in_range {A} (l : list A) (k : Z) :
  1 <= k <= Py.len_list l ->
  exists c, Py.index l (k - 1) = Some c /\ l !! Z.to_nat (k - 1) = Some c.
Proof.
  intros Hk. unfold Py.index, Py.len_list in *.
  destruct (l !! Z.to_nat (k - 1)) as [c|] eqn:E.
  - exists c. split; [|reflexivity].
    replace (0 <=? k - 1) with true by (symmetry; apply Z.leb_le; lia).
    replace (k - 1 <? Z.of_nat (length l)) with true
      by (symmetry; apply Z.ltb_lt; lia).
    reflexivity.
  - apply lookup_ge_None in E. lia.
Qed.

(** What [_request_option] makes of a line. *)
Lemma option_choice fuel h self nd line rest out :
  h !! self = Some nd ->
  match option_check (Py.len_list (children nd)) line with
  | Ok true =>
      exists c,
        (exists k, Py.int line = Some k
                   /\ children nd !! Z.to_nat (k - 1) = Some c)
        /\ _request_option (S fuel) h self (World (line :: rest) out)
           = Done (Some c) (World rest (out +:+ option_prompt +:+ ": "))
  | Ok false =>
      _request_option (S fuel) h self (World (line :: rest) out)
      = Done None
          (World rest
             (out +:+ option_prompt +:+ ": " +:+ "No such option. "
              +:+ nl))
  | Err e =>
      _request_option (S fuel) h self (World (line :: rest) out)
      = Raised e (World rest (out +:+ option_prompt +:+ ": "))
  end.
Proof.
  intros Hself. unfold _request_option.
  destruct (option_check _ line) as [[|]|e] eqn:Hck.
  - destruct (option_check_accepts _ _ Hck) as (Hd & k & Hk & Hrange).
    destruct (index_in_range (children nd) k) as [c [Hi Hl]]; [lia|].
    exists c. split; [eauto|].
    erewrite bind_Done by (eapply get_node_found; eassumption).
    erewrite bind_Done by (rewrite request_choice, Hck; reflexivity).
    simpl. unfold bind, of_option, ret. rewrite Hk. simpl. now rewrite Hi.
  - erewrite bind_Done by (eapply get_node_found; eassumption).
    erewrite bind_Done by (rewrite request_choice, Hck; reflexivity).
    reflexivity.
  - erewrite bind_Done by (eapply get_node_found; eassumption).
    unfold bind. now rewrite request_choice, Hck.
Qed.

(** C10. Whenever the choice request of [_request_option] reports an
    accepted result, the accepted string is a digit string whose value [k]
    lies between 1 and the number of children, the index [k - 1] is inside
    the list and [_request_option] returns that child; when the request
    reports a refusal, [_request_option] returns [None] without
    indexing. *)
Theorem request_option_in_bounds fuel h self nd w :
  h !! self = Some nd ->
  (forall choice w',
      request_input fuel option_prompt "No such option."
        (option_options (Py.len_list (children nd))) w
      = Done (choice, true) w' ->
      exists k c,
        Py.isdigit choice = true /\ Py.int choice = Some k
        /\ 1 <= k <= Py.len_list (children nd)
        /\ Py.index (children nd) (k - 1) = Some c
        /\ children nd !! Z.to_nat (k - 1) = Some c
        /\ _request_option fuel h self w = Done (Some c) w')
  /\ (forall choice w',
        request_input fuel option_prompt "No such option."
          (option_options (Py.len_list (children nd))) w
        = Done (choice, false) w' ->
        _request_option fuel h self w = Done None w').
Proof.
  intros Hnd.
  assert (Hunf : _request_option fuel h self w =
    (let* '(choice, state) :=
       request_input fuel option_prompt "No such option."
         (option_options (Py.len_list (children nd))) in
     if negb state then ret None
     else let* n := of_option ValueError (Py.int choice) in
          let* opt := of_option IndexError (Py.index (children nd) (n - 1)) in
          ret (Some opt)) w).
  { unfold _request_option, bind at 1, get_node. now rewrite Hnd. }
  split.
  - intros choice w' Hr. rewrite Hunf. unfold bind at 1. rewrite Hr.
    destruct fuel as [|fuel]; [discriminate|].
    destruct w as [[|line rest] out].
    { now rewrite request_input_eof in Hr. }
    rewrite request_choice in Hr.
    destruct (option_check _ line) as [[|]|e] eqn:Hck; try discriminate.
    injection Hr as <- <-.
    destruct (option_check_accepts _ _ Hck) as (Hd & k & Hk & Hrange).
    destruct (index_in_range (children nd) k) as [c [Hi Hl]]; [lia|].
    exists k, c. repeat split; try assumption; try lia.
    simpl. unfold bind, of_option, ret. rewrite Hk. simpl. now rewrite Hi.
  - intros choice w' Hr. rewrite Hunf. unfold bind at 1. now rewrite Hr.
Qed.

Lemma request_option_in_bounds_witness :
  exists k c,
    Py.isdigit "2" = true /\ Py.int "2" = Some k
    /\ 1 <= k <= 4
    /\ Py.index [1; 6; 7; 8]%nat (k - 1) = Some c
    /\ [1; 6; 7; 8]%nat !! Z.to_nat (k - 1) = Some c
    /\ _request_option 1 (menu_heap DEFAULT_MENU_CONFIG) 0
         (World ["2"; "1"] "")
       = Done (Some c) (World ["1"] (option_prompt +:+ ": ")).
Proof.
  exact (proj1 (request_option_in_bounds 1 (menu_heap DEFAULT_MENU_CONFIG)
                  0%nat
                  (menu_node "Main Menu [d]" (EnterNextLevel 0) []
                     DEFAULT_MENU_CONFIG [1; 6; 7; 8]%nat true)
                  (World ["2"; "1"] "") eq_refl)
           "2" (World ["1"] (option_prompt +:+ ": ")) eq_refl).
Defined.

(** ** [_draw_menu] *)

Lemma str_rep_char n c : Py.str_rep (String c "") n = Spec.fill n c.
Proof.
  induction n as [|n IH]; [reflexivity|].
  simpl. now rewrite IH.
Qed.

Lemma str_mul_char n c : Py.str_mul (String c "") (Z.of_nat n) = Spec.fill n c.
Proof. unfold Py.str_mul. rewrite Nat2Z.id. apply str_rep_char. Qed.

Lemma list_mul_single {A} (x : A) n :
  Py.list_mul [x] (Z.of_nat n) = repeat x n.
Proof.
  unfold Py.list_mul. rewrite Nat2Z.id.
  induction n as [|n IH]; [reflexivity|]. simpl. now rewrite IH.
Qed.

Lemma length_fill n c : String.length (Spec.fill n c) = n.
Proof. induction n as [|n IH]; [reflexivity|]. simpl. now rewrite IH. Qed.

Lemma unlines_app l1 l2 :
  Spec.unlines (l1 ++ l2) = Spec.unlines l1 +:+ Spec.unlines l2.
Proof.
  induction l1 as [|x l1 IH]; [reflexivity|].
  simpl. rewrite IH. now autorewrite with str.
Qed.

(** What [print("\n".join(l))] sends to the console. *)
Lemma join_unlines l : l <> [] -> Py.join nl l +:+ nl = Spec.unlines l.
Proof.
  induction l as [|x [|y l] IH]; intros Hne; [congruence| |].
  - simpl. now autorewrite with str.
  - change (Py.join nl (x :: y :: l)) with (x +:+ nl +:+ Py.join nl (y :: l)).
    change (Spec.unlines (x :: y :: l))
      with (x +:+ nl +:+ Spec.unlines (y :: l)).
    rewrite <- IH by discriminate. now autorewrite with str.
Qed.

Lemma rjust_aligned s width :
  Py.rjust s (Z.of_nat width) = Spec.right_aligned s width.
Proof.
  unfold Py.rjust, Spec.right_aligned, Py.str_mul, Py.len.
  replace (Z.to_nat (Z.of_nat width - Z.of_nat (String.length s)))
    with (width - String.length s)%nat by lia.
  now rewrite (str_rep_char _ " ").
Qed.

Lemma ljust_aligned s width :
  Py.ljust s (Z.of_nat width) = Spec.left_aligned s width.
Proof.
  unfold Py.ljust, Spec.left_aligned, Py.str_mul, Py.len.
  replace (Z.to_nat (Z.of_nat width - Z.of_nat (String.length s)))
    with (width - String.length s)%nat by lia.
  now rewrite (str_rep_char _ " ").
Qed.

Lemma fold_max_of_nat l : forall a,
  fold_left Z.max (map Py.len l) (Z.of_nat a)
  = Z.of_nat (Nat.max a (list_max (map String.length l))).
Proof.
  induction l as [|x l IH]; intros a; simpl.
  - now rewrite Nat.max_0_r.
  - unfold Py.len at 2. rewrite <- Nat2Z.inj_max, IH. f_equal. lia.
Qed.

Lemma max_title_width titles :
  titles <> [] ->
  Py.max (map Py.len titles)
  = Some (Z.of_nat (Spec.maxTitleWidth titles)).
Proof.
  destruct titles as [|t titles]; [congruence|]. intros _.
  unfold Py.max, Spec.maxTitleWidth. simpl map.
  unfold Py.len at 1. rewrite fold_max_of_nat. reflexivity.
Qed.

Section DrawMenu.

Variables (h : heap) (self : node_id) (nd : OptionNode).
Variables (l r t b : nat) (e f : ascii) (sm : string) (again : bool).
Variable titles : list string.

Hypothesis Hself : h !! self = Some nd.
Hypothesis Hcfg :
  menu_config nd
  = full_config (Z.of_nat l) (Z.of_nat r) (Z.of_nat t) (Z.of_nat b)
      (String e "") (String f "") sm again.
Hypothesis Htitles : child_titles h nd titles.
Hypothesis Hne : titles <> [].

Lemma children_length : length (children nd) = length titles.
Proof. exact (Forall2_length _ _ _ Htitles). Qed.

Lemma title_lengths cs ts inp out :
  Forall2 (fun c t => exists cn, h !! c = Some cn /\ title cn = t) cs ts ->
  comprehension cs
    (fun c => let* cn := get_node h c in ret (Py.len (title cn)))
    (World inp out)
  = Done (map Py.len ts) (World inp out).
Proof.
  induction 1 as [|c t' cs ts (cn & Hc & Ht) _ IH]; [reflexivity|].
  rewrite comprehension_cons.
  erewrite bind_Done
    by (erewrite bind_Done by (eapply get_node_found; eassumption); reflexivity).
  erewrite bind_Done by exact IH.
  unfold ret. simpl. now rewrite Ht.
Qed.

Lemma max_length_of_titles inp out :
  _get_max_length_of_option_titles h self (World inp out)
  = Done (Z.of_nat (Spec.maxTitleWidth titles)) (World inp out).
Proof.
  unfold _get_max_length_of_option_titles.
  erewrite bind_Done by (eapply get_node_found; eassumption).
  erewrite bind_Done by (eapply title_lengths; exact Htitles).
  now rewrite max_title_width.
Qed.

Lemma printed_entries cs ts : forall (i : nat) inp out,
  Forall2 (fun c t => exists cn, h !! c = Some cn /\ title cn = t) cs ts ->
  for_each (Py.enumerate_from (Z.of_nat i) cs)
    (fun '(i, opt) =>
       let* optn := get_node h opt in
       print ((String e "" +:+ Spec.fill l f)
              +:+ Py.rjust (Py.str (i + 1))
                    (Z.of_nat (Spec.maxSerialWidth titles))
              +:+ sm
              +:+ Py.ljust (title optn)
                    (Z.of_nat (Spec.maxTitleWidth titles))
              +:+ Spec.fill r f +:+ String e ""))
    (World inp out)
  = Done tt
      (World inp
         (out +:+ Spec.unlines (Spec.entries l r e f sm titles (S i) ts))).
Proof.
  intros i inp out H. revert i out.
  induction H as [|c t' cs ts (cn & Hc & Ht) _ IH]; intros i out.
  - simpl. unfold ret. now rewrite append_nil_r.
  - change (Py.enumerate_from (Z.of_nat i) (c :: cs))
      with ((Z.of_nat i, c) :: Py.enumerate_from (Z.of_nat i + 1) cs).
    rewrite for_each_cons.
    erewrite bind_Done
      by (erewrite bind_Done by (eapply get_node_found; eassumption); reflexivity).
    simpl stdin. simpl stdout.
    replace (Z.of_nat i + 1) with (Z.of_nat (S i)) by lia.
    rewrite IH. f_equal. f_equal.
    simpl Spec.entries. simpl Spec.unlines.
    unfold Spec.entry, Spec.numeral.
    rewrite rjust_aligned, ljust_aligned, Ht.
    autorewrite with strc. reflexivity.
Qed.

Lemma draw_menu_text inp out :
  _draw_menu h self (World inp out)
  = Done tt (World inp (out +:+ menu_text l r t b e f sm titles)).
Proof.
  assert (Hserial : Py.len (Py.str (Py.len_list (children nd)))
                    = Z.of_nat (Spec.maxSerialWidth titles)).
  { unfold Py.len_list. now rewrite children_length. }
  assert (Hwidth : Z.of_nat l
                   + (Z.of_nat (Spec.maxSerialWidth titles) + Py.len sm
                      + Z.of_nat (Spec.maxTitleWidth titles))
                   + Z.of_nat r
                   = Z.of_nat (Spec.interiorWidth l r sm titles)).
  { unfold Spec.interiorWidth, Spec.contentWidth, Py.len. lia. }
  assert (Hedge : Z.of_nat (Spec.interiorWidth l r sm titles)
                  + Py.len (String e "") * 2
                  = Z.of_nat (Spec.interiorWidth l r sm titles + 2)).
  { unfold Py.len. simpl String.length. lia. }
  unfold _draw_menu.
  erewrite bind_Done by (eapply get_node_found; eassumption).
  rewrite Hcfg. unfold full_config, cfg_get, of_option.
  cbn [left_padding right_padding top_padding bottom_padding edge_char
       wall_char serial_marker].
  do 7 (erewrite bind_Done by reflexivity).
  erewrite bind_Done by apply max_length_of_titles.
  cbv zeta. rewrite Hserial, Hwidth, Hedge.
  rewrite !list_mul_single, !str_mul_char.
  erewrite bind_Done by reflexivity.
  cbn [stdin stdout]. unfold Py.enumerate.
  erewrite bind_Done by (eapply (printed_entries _ titles 0); exact Htitles).
  unfold print, print_. cbn [stdin stdout].
  rewrite (append_assoc out), join_unlines by discriminate.
  rewrite join_unlines
    by (intros H; apply app_eq_nil in H as [_ H]; discriminate).
  f_equal. f_equal.
  unfold menu_text, Spec.render, Spec.border, Spec.blank.
  rewrite !unlines_app. cbn [Spec.unlines].
  rewrite !append_cons. autorewrite with str. reflexivity.
Qed.

End DrawMenu.

(** The heap that [test_helper] builds. *)
Lemma test_tree_heap menu_config_ inp out :
  test_tree menu_config_ (World inp out)
  = Done (menu_heap (default DEFAULT_MENU_CONFIG menu_config_), 0%nat)
      (World inp (out +:+ banner)).
Proof. reflexivity. Qed.

(** C9. For a node whose children carry the titles [titles] (at least
    one), under a configuration that sets every key, with paddings
    [l r t b], edge character [e], fill character [f] and serial marker
    [sm], [_draw_menu] prints the menu of section 4.2, line by line: the
    border of [interiorWidth + 2] edge characters, [t] blank interior
    lines, one line per title with its serial number from 1 right-aligned
    and the title left-aligned, [b] blank interior lines, the border
    again. The text depends on the titles and the configuration alone:
    drawing twice prints it twice. *)
Theorem draw_menu_renders h self nd l r t b e f sm again titles inp out :
  h !! self = Some nd ->
  menu_config nd
  = full_config (Z.of_nat l) (Z.of_nat r) (Z.of_nat t) (Z.of_nat b)
      (String e "") (String f "") sm again ->
  child_titles h nd titles ->
  titles <> [] ->
  _draw_menu h self (World inp out)
  = Done tt
      (World inp (out +:+ Spec.unlines (Spec.render l r t b e f sm titles)))
  /\ (_draw_menu h self ;; _draw_menu h self) (World inp out)
     = Done tt
         (World inp
            (out +:+ Spec.unlines (Spec.render l r t b e f sm titles)
             +:+ Spec.unlines (Spec.render l r t b e f sm titles)))
  /\ length (Spec.render l r t b e f sm titles)
     = (1 + t + length titles + b + 1)%nat
  /\ String.length (Spec.border l r e sm titles)
     = (Spec.interiorWidth l r sm titles + 2)%nat.
Proof.
  intros Hself Hcfg Htitles Hne.
  pose proof (draw_menu_text h self nd l r t b e f sm again titles
                Hself Hcfg Htitles Hne) as Hdraw.
  unfold menu_text in Hdraw.
  split; [apply Hdraw | split; [|split]].
  - erewrite bind_Done by apply Hdraw. rewrite Hdraw.
    now rewrite append_assoc.
  - unfold Spec.render. rewrite !length_app, !repeat_length. simpl.
    assert (Hlen : forall ts i,
      length (Spec.entries l r e f sm titles i ts) = length ts).
    { induction ts as [|x ts IH]; intros i; [reflexivity|].
      simpl. now rewrite IH. }
    rewrite Hlen. lia.
  - unfold Spec.border. apply length_fill.
Qed.

Lemma draw_menu_renders_witness :
  _draw_menu (menu_heap DEFAULT_MENU_CONFIG) 0%nat (World [] "")
  = Done tt
      (World []
         (Spec.unlines
            [ "##########################";
              "#                        #";
              "#  1. New [d]            #";
              "#  2. Open File          #";
              "#  3. Save               #";
              "#  4. [Exit]             #";
              "#                        #";
              "##########################" ])).
Proof.
  refine (proj1 (draw_menu_renders (menu_heap DEFAULT_MENU_CONFIG) 0%nat
           (menu_node "Main Menu [d]" (EnterNextLevel 0) []
              DEFAULT_MENU_CONFIG [1; 6; 7; 8]%nat true)
           2 10 1 1 "#" " " ". " false
           ["New [d]"; "Open File"; "Save"; "[Exit]"] [] "" _ _ _ _)).
  - reflexivity.
  - reflexivity.
  - repeat constructor; eexists; split; reflexivity.
  - discriminate.
Defined.

(** ** [add_option] *)

Lemma substring_all s : String.substring 0 (String.length s) s = s.
Proof. induction s as [|c s IH]; [reflexivity|]. simpl. now rewrite IH. Qed.

Lemma substring_suffix t s :
  String.substring (String.length t) (String.length s) (t +:+ s) = s.
Proof.
  induction t as [|c t IH]; [apply substring_all|].
  rewrite append_cons. simpl. exact IH.
Qed.

Lemma endswith_append t s : Py.endswith (t +:+ s) s = true.
Proof.
  unfold Py.endswith. rewrite length_append.
  replace (String.length t + String.length s - String.length s)%nat
    with (String.length t) by lia.
  rewrite substring_suffix, String.eqb_refl.
  apply andb_true_intro. split; [apply Nat.leb_le; lia | reflexivity].
Qed.

Lemma endswith_marked t : Py.endswith (marked t) " [d]" = true.
Proof.
  unfold marked. destruct (Py.endswith t " [d]") eqn:E; [exact E|].
  apply endswith_append.
Qed.

Lemma marked_idempotent t : marked (marked t) = marked t.
Proof. unfold marked at 1. now rewrite endswith_marked. Qed.

(** One call: the node it is made on gets the marked title, the traversal
    as its action and one more child; every other node stays as it is. *)
Lemma add_option_node h self title_ exec_func_ args_ kwargs_ h1 id i nd :
  add_option h self title_ exec_func_ args_ kwargs_ = Some (h1, id) ->
  h !! i = Some nd ->
  exists nd1,
    h1 !! i = Some nd1
    /\ (nd1 = nd
        \/ (i = self
            /\ exec_func nd1 = EnterNextLevel i
            /\ children nd1 = children nd ++ [id]
            /\ title nd1 = marked (title nd))).
Proof.
  unfold add_option. intros Hadd Hi.
  destruct (h !! self) as [snd|] eqn:Hself; [|discriminate].
  cbv zeta in Hadd. injection Hadd as <- <-.
  pose proof (lookup_lt_Some _ _ _ Hi) as Hlt.
  destruct (decide (i = self)) as [->|Hne].
  - rewrite Hself in Hi. injection Hi as ->.
    eexists. split.
    + rewrite lookup_app_l by (rewrite length_insert; exact Hlt).
      apply list_lookup_insert_eq. exact Hlt.
    + right. repeat split. unfold marked. simpl.
      now destruct (Py.endswith (title nd) " [d]").
  - exists nd. split; [|left; reflexivity].
    rewrite lookup_app_l by (rewrite length_insert; exact Hlt).
    rewrite list_lookup_insert_ne by congruence. exact Hi.
Qed.

(** Any number of calls: a node is as it was, or it has children, the
    traversal as its action and the marked title. *)
Lemma add_options_node h h' :
  add_options h h' ->
  forall i nd,
    h !! i = Some nd ->
    exists nd',
      h' !! i = Some nd'
      /\ (nd' = nd
          \/ (exec_func nd' = EnterNextLevel i
              /\ children nd' <> []
              /\ title nd' = marked (title nd))).
Proof.
  induction 1 as [h|h h1 h2 self t f a k id Hadd _ IH]; intros i nd Hi.
  - exists nd. split; [exact Hi | left; reflexivity].
  - destruct (add_option_node _ _ _ _ _ _ _ _ _ _ Hadd Hi)
      as (nd1 & Hi1 & Hstep).
    destruct (IH i nd1 Hi1) as (nd' & Hi' & Hrest).
    exists nd'. split; [exact Hi'|].
    destruct Hstep as [-> | (-> & Hf & Hc & Ht)]; [exact Hrest|].
    right. destruct Hrest as [-> | (Hf' & Hc' & Ht')].
    + repeat split; [exact Hf | | exact Ht].
      rewrite Hc. intros Happ. now apply app_eq_nil in Happ as [_ ?].
    + repeat split; [exact Hf' | exact Hc' |].
      now rewrite Ht', Ht, marked_idempotent.
Qed.

(** C6, amended. After any sequence of [add_option] calls, a node that
    started without children and has at least one now has the traversal
    [_enter_next_level], bound to itself, as its [exec_func], and its
    title is the title it was created with followed by one [ [d]], however
    many children were added; unless that title ended with [ [d]]
    already, in which case it is unchanged. Either way the title ends with
    the marker. *)
Theorem submenu_invariant h h' i nd nd' :
  add_options h h' ->
  h !! i = Some nd ->
  children nd = [] ->
  h' !! i = Some nd' ->
  children nd' <> [] ->
  exec_func nd' = EnterNextLevel i
  /\ title nd'
     = (if Py.endswith (title nd) " [d]" then title nd
        else title nd +:+ " [d]")
  /\ Py.endswith (title nd') " [d]" = true.
Proof.
  intros Hadds Hi Hnone Hi' Hsome.
  destruct (add_options_node _ _ Hadds i nd Hi) as (nd2 & Hi2 & Hcase).
  rewrite Hi' in Hi2. injection Hi2 as <-.
  destruct Hcase as [-> | (Hf & _ & Ht)]; [congruence|].
  split; [exact Hf | split; [exact Ht|]].
  rewrite Ht. apply endswith_marked.
Qed.

Lemma submenu_invariant_witness :
  exec_func (menu_node "Main Menu [d]" (EnterNextLevel 0) []
               DEFAULT_MENU_CONFIG [1; 2]%nat true)
  = EnterNextLevel 0
  /\ "Main Menu [d]" = "Main Menu [d]"
  /\ Py.endswith "Main Menu [d]" " [d]" = true.
Proof.
  refine (submenu_invariant
            [new_node "Main Menu" None None None None true]
            [menu_node "Main Menu [d]" (EnterNextLevel 0) []
               DEFAULT_MENU_CONFIG [1; 2]%nat true;
             new_node "New" None None None None false;
             new_node "Save" None None None None false]
            0%nat
            (new_node "Main Menu" None None None None true)
            (menu_node "Main Menu [d]" (EnterNextLevel 0) []
               DEFAULT_MENU_CONFIG [1; 2]%nat true)
            _ _ _ _ _).
  - apply (add_options_call _
             [menu_node "Main Menu [d]" (EnterNextLevel 0) []
                DEFAULT_MENU_CONFIG [1%nat] true;
              new_node "New" None None None None false]
             _ 0%nat "New" None None None 1%nat); [vm_compute; reflexivity|].
    apply (add_options_call _
             [menu_node "Main Menu [d]" (EnterNextLevel 0) []
                DEFAULT_MENU_CONFIG [1; 2]%nat true;
              new_node "New" None None None None false;
              new_node "Save" None None None None false]
             _ 0%nat "Save" None None None 2%nat); [vm_compute; reflexivity|].
    apply add_options_done.
  - reflexivity.
  - reflexivity.
  - reflexivity.
  - discriminate.
Defined.

(** C6 as stated fails on a node whose title already ends with the
    marker: the title is left as it is. *)
Lemma marker_always_appended_fails : ~ marker_always_appended.
Proof.
  intros H.
  destruct (H [new_node "Tools [d]" None None None None true]
              [menu_node "Tools [d]" (EnterNextLevel 0) []
                 DEFAULT_MENU_CONFIG [1%nat] true;
               new_node "Edit" None None None None false]
              0%nat
              (new_node "Tools [d]" None None None None true)
              (menu_node "Tools [d]" (EnterNextLevel 0) []
                 DEFAULT_MENU_CONFIG [1%nat] true))
    as [_ Ht]; try reflexivity; try discriminate.
  apply (add_options_call _
           [menu_node "Tools [d]" (EnterNextLevel 0) []
              DEFAULT_MENU_CONFIG [1%nat] true;
            new_node "Edit" None None None None false]
           _ 0%nat "Edit" None None None 1%nat);
    [vm_compute; reflexivity | apply add_options_done].
Qed.

(** ** [_enter_next_level] *)

Lemma bind_Done_inv {A B} (m : M A) (k : A -> M B) w b w' :
  bind m k w = Done b w' ->
  exists a w1, m w = Done a w1 /\ k a w1 = Done b w'.
Proof.
  unfold bind. destruct (m w) as [a w1| | |]; try discriminate. eauto.
Qed.

(** The loop, a round at a time. *)
Lemma enter_loop_round fuel h self state w :
  enter_loop (S fuel) h self state w
  = (if keeps_looping state
     then
       let* opt := choose fuel h self state in
       match opt with
       | None => enter_loop fuel h self VNone
       | Some c =>
           let* optn := get_node h c in
           let* state' := call_exec_func (_enter_next_level fuel h) optn in
           enter_loop fuel h self state'
       end
     else
       if is_code state _QUIT_CODE
       then ret (VInt _QUIT_CODE)
       else ret (VInt _ENTER_CODE)) w.
Proof.
  simpl. destruct (keeps_looping state); [|reflexivity].
  unfold choose, bind.
  destruct (redraw h self state w); reflexivity.
Qed.

(** A traversal that returns hands back [_QUIT_CODE] or [_ENTER_CODE]. *)
Lemma enter_loop_result fuel h : forall self state w v w',
  enter_loop fuel h self state w = Done v w' ->
  v = VInt _QUIT_CODE \/ v = VInt _ENTER_CODE.
Proof.
  induction fuel as [|fuel IH]; intros self state w v w' H;
    [discriminate|].
  rewrite enter_loop_round in H.
  destruct (keeps_looping state).
  - apply bind_Done_inv in H as (opt & w1 & _ & H).
    destruct opt as [c|]; [|exact (IH _ _ _ _ _ H)].
    apply bind_Done_inv in H as (optn & w2 & _ & H).
    apply bind_Done_inv in H as (state' & w3 & _ & H).
    exact (IH _ _ _ _ _ H).
  - destruct (is_code state _QUIT_CODE); injection H as <- _; auto.
Qed.

(** C1. When the loop of [_enter_next_level] ends, the function returns
    [_QUIT_CODE] if the last state is [_QUIT_CODE] and [_ENTER_CODE] if it
    is [_RETURN_CODE]; a traversal that returns never hands back anything
    else. So when the action of the chosen option returns [_QUIT_CODE], be
    it a leaf or the traversal of a submenu, the level returns
    [_QUIT_CODE] to its own caller at once, nothing printed and nothing
    read in between, and so on up to the root; when it returns
    [_RETURN_CODE] the level returns [_ENTER_CODE], on which the level
    above goes on with its loop. The last part is the case of a submenu:
    what its traversal hands back as [_QUIT_CODE], after any number of
    rounds and from any depth below, the level above hands back too. *)
Theorem signals_unwind fuel h self :
  (forall w,
      enter_loop (S fuel) h self (VInt _QUIT_CODE) w
      = Done (VInt _QUIT_CODE) w)
  /\ (forall w,
        enter_loop (S fuel) h self (VInt _RETURN_CODE) w
        = Done (VInt _ENTER_CODE) w)
  /\ (forall state w v w',
        enter_loop fuel h self state w = Done v w' ->
        v = VInt _QUIT_CODE \/ v = VInt _ENTER_CODE)
  /\ (forall state w c optn w1 w2,
        keeps_looping state = true ->
        choose (S fuel) h self state w = Done (Some c) w1 ->
        h !! c = Some optn ->
        (call_exec_func (_enter_next_level (S fuel) h) optn w1
         = Done (VInt _QUIT_CODE) w2 ->
         enter_loop (S (S fuel)) h self state w
         = Done (VInt _QUIT_CODE) w2)
        /\ (call_exec_func (_enter_next_level (S fuel) h) optn w1
            = Done (VInt _RETURN_CODE) w2 ->
            enter_loop (S (S fuel)) h self state w
            = Done (VInt _ENTER_CODE) w2)
        /\ (call_exec_func (_enter_next_level (S fuel) h) optn w1
            = Done (VInt _ENTER_CODE) w2 ->
            enter_loop (S (S fuel)) h self state w
            = enter_loop (S fuel) h self (VInt _ENTER_CODE) w2))
  /\ (forall state w c optn w1 w2,
        keeps_looping state = true ->
        choose (S fuel) h self state w = Done (Some c) w1 ->
        h !! c = Some optn ->
        exec_func optn = EnterNextLevel c ->
        args optn = [] ->
        kwargs optn = [] ->
        _enter_next_level (S fuel) h c w1 = Done (VInt _QUIT_CODE) w2 ->
        enter_loop (S (S fuel)) h self state w
        = Done (VInt _QUIT_CODE) w2).
Proof.
  assert (Hround : forall state w c optn w1 w2 v,
    keeps_looping state = true ->
    choose (S fuel) h self state w = Done (Some c) w1 ->
    h !! c = Some optn ->
    call_exec_func (_enter_next_level (S fuel) h) optn w1 = Done v w2 ->
    enter_loop (S (S fuel)) h self state w
    = enter_loop (S fuel) h self v w2).
  { intros state w c optn w1 w2 v Hloop Hchoose Hc Hcall.
    rewrite enter_loop_round, Hloop.
    erewrite bind_Done by exact Hchoose. cbv beta iota.
    erewrite bind_Done by (eapply get_node_found; exact Hc).
    erewrite bind_Done by exact Hcall. reflexivity. }
  split; [reflexivity | split; [reflexivity | split; [|split]]].
  - apply enter_loop_result.
  - intros state w c optn w1 w2 Hloop Hchoose Hc.
    repeat split; intros Hcall;
      rewrite (Hround _ _ _ _ _ _ _ Hloop Hchoose Hc Hcall); reflexivity.
  - intros state w c optn w1 w2 Hloop Hchoose Hc Hf Ha Hk Hsub.
    rewrite (Hround _ _ _ _ _ w2 (VInt _QUIT_CODE) Hloop Hchoose Hc);
      [reflexivity|].
    unfold call_exec_func. now rewrite Hf, Ha, Hk.
Qed.

Lemma signals_unwind_witness :
  enter_loop 3 (menu_heap DEFAULT_MENU_CONFIG) 0 (VInt _ENTER_CODE)
    (World ["1"; "4"] "")
  = Done (VInt _QUIT_CODE)
      (World []
         (menu_text 2 10 1 1 "#" " " ". "
            ["New [d]"; "Open File"; "Save"; "[Exit]"]
          +:+ option_prompt +:+ ": "
          +:+ menu_text 2 10 1 1 "#" " " ". "
                ["[Back]"; "New File"; "New Folder"; "[Exit]"]
          +:+ option_prompt +:+ ": ")).
Proof.
  destruct (signals_unwind 1%nat (menu_heap DEFAULT_MENU_CONFIG) 0%nat)
    as (_ & _ & _ & _ & Hq).
  refine (Hq (VInt _ENTER_CODE) (World ["1"; "4"] "") 1%nat
            (menu_node "New [d]" (EnterNextLevel 1) []
               DEFAULT_MENU_CONFIG [2; 3; 4; 5]%nat false)
            (World ["4"]
               (menu_text 2 10 1 1 "#" " " ". "
                  ["New [d]"; "Open File"; "Save"; "[Exit]"]
                +:+ option_prompt +:+ ": "))
            _ _ _ _ _ _ _ _); vm_compute; reflexivity.
Defined.

Lemma menu_text_not_empty l r t b e f sm titles :
  menu_text l r t b e f sm titles <> "".
Proof.
  unfold menu_text, Spec.render, Spec.border.
  replace (Spec.interiorWidth l r sm titles + 2)%nat
    with (S (S (Spec.interiorWidth l r sm titles))) by lia.
  discriminate.
Qed.

Section Redraw.

Variables (h : heap) (self : node_id) (nd : OptionNode).
Variables (l r t b : nat) (e f : ascii) (sm : string) (again : bool).
Variable titles : list string.

Hypothesis Hself : h !! self = Some nd.
Hypothesis Hcfg :
  menu_config nd
  = full_config (Z.of_nat l) (Z.of_nat r) (Z.of_nat t) (Z.of_nat b)
      (String e "") (String f "") sm again.
Hypothesis Htitles : child_titles h nd titles.
Hypothesis Hne : titles <> [].

(** What lines 218-219 print. *)
Lemma redraw_text state inp out :
  redraw h self state (World inp out)
  = Done tt
      (World inp
         (out +:+ (if again || is_code state _ENTER_CODE
                   then menu_text l r t b e f sm titles else ""))).
Proof.
  unfold redraw.
  erewrite bind_Done by (eapply get_node_found; eassumption).
  rewrite Hcfg. unfold full_config, cfg_get, of_option.
  cbn [draw_menu_again].
  erewrite bind_Done by reflexivity.
  destruct (again || is_code state _ENTER_CODE).
  - now apply (draw_menu_text h self nd l r t b e f sm again).
  - unfold ret. now rewrite append_nil_r.
Qed.

(** A round in which the line typed is not the number of an option. *)
Lemma failed_choice_round fuel state line rest out :
  keeps_looping state = true ->
  option_check (Py.len_list (children nd)) line = Ok false ->
  enter_loop (S (S fuel)) h self state (World (line :: rest) out)
  = enter_loop (S fuel) h self VNone
      (World rest
         (out +:+ (if again || is_code state _ENTER_CODE
                   then menu_text l r t b e f sm titles else "")
          +:+ option_prompt +:+ ": " +:+ "No such option. " +:+ nl)).
Proof.
  intros Hloop Hcheck.
  rewrite enter_loop_round, Hloop.
  erewrite bind_Done.
  2: { unfold choose.
       erewrite bind_Done by apply redraw_text.
       pose proof (option_choice fuel h self nd line rest
                     (out +:+ (if again || is_code state _ENTER_CODE
                               then menu_text l r t b e f sm titles
                               else "")) Hself) as Hopt.
       rewrite Hcheck in Hopt. exact Hopt. }
  cbv beta iota. now rewrite !append_assoc.
Qed.

(** A round in which the line typed is the number of an option: the
    choice, and the console it leaves. *)
Lemma valid_choice fuel state line k (c : node_id) rest out :
  option_check (Py.len_list (children nd)) line = Ok true ->
  Py.int line = Some k ->
  children nd !! Z.to_nat (k - 1) = Some c ->
  choose (S fuel) h self state (World (line :: rest) out)
  = Done (Some c)
      (World rest
         (out +:+ (if again || is_code state _ENTER_CODE
                   then menu_text l r t b e f sm titles else "")
          +:+ option_prompt +:+ ": ")).
Proof.
  intros Hcheck Hk Hc. unfold choose.
  erewrite bind_Done by apply redraw_text.
  pose proof (option_choice fuel h self nd line rest
                (out +:+ (if again || is_code state _ENTER_CODE
                          then menu_text l r t b e f sm titles
                          else "")) Hself) as Hopt.
  rewrite Hcheck in Hopt. destruct Hopt as (c' & (k' & Hk' & Hc') & Hopt).
  rewrite Hopt. rewrite Hk in Hk'. injection Hk' as <-.
  rewrite Hc in Hc'. injection Hc' as <-.
  now rewrite !append_assoc.
Qed.

(** A round at the end of the input. *)
Lemma last_round fuel state out :
  keeps_looping state = true ->
  enter_loop (S (S fuel)) h self state (World [] out)
  = Raised EOFError
      (World []
         (out +:+ (if again || is_code state _ENTER_CODE
                   then menu_text l r t b e f sm titles else "")
          +:+ option_prompt +:+ ": ")).
Proof.
  intros Hloop. rewrite enter_loop_round, Hloop.
  unfold bind at 1, choose. erewrite bind_Done by apply redraw_text.
  unfold _request_option.
  erewrite bind_Done by (eapply get_node_found; eassumption).
  unfold bind. rewrite request_input_eof.
  unfold prompt_text. simpl. now rewrite !append_assoc.
Qed.

(** Any number of lines that are not the number of an option, then the
    end of the input: the round the loop is in prints the menu or not by
    its state, the later ones by [draw_menu_again] alone. *)
Lemma failed_choices_eof fuel lines : forall state out,
  keeps_looping state = true ->
  Forall (fun line =>
            option_check (Py.len_list (children nd)) line = Ok false)
    lines ->
  enter_loop (S (S (length lines + fuel))) h self state (World lines out)
  = Raised EOFError
      (World []
         (out
          +:+ (if again || is_code state _ENTER_CODE
               then menu_text l r t b e f sm titles else "")
          +:+ option_prompt +:+ ": "
          +:+ Py.str_rep
                ("No such option. " +:+ nl
                 +:+ (if again then menu_text l r t b e f sm titles else "")
                 +:+ option_prompt +:+ ": ")
                (length lines))).
Proof.
  induction lines as [|line lines IH]; intros state out Hloop Hall.
  - simpl length. simpl Py.str_rep. rewrite last_round by assumption.
    now autorewrite with str.
  - apply Forall_cons in Hall as [Hline Hall].
    change (S (S (length (line :: lines) + fuel)))
      with (S (S (S (length lines + fuel)))).
    rewrite failed_choice_round by assumption.
    rewrite (IH VNone _ eq_refl Hall).
    cbn [length is_code]. rewrite orb_false_r.
    simpl Py.str_rep. now rewrite !append_assoc.
Qed.

(** Any number of such lines, then the number of an option: the action of
    the option is called on the console those rounds leave. *)
Lemma failed_choices_chosen fuel line k (c : node_id) optn rest lines :
  forall state out,
  keeps_looping state = true ->
  Forall (fun line =>
            option_check (Py.len_list (children nd)) line = Ok false)
    lines ->
  option_check (Py.len_list (children nd)) line = Ok true ->
  Py.int line = Some k ->
  children nd !! Z.to_nat (k - 1) = Some c ->
  h !! c = Some optn ->
  enter_loop (S (S (length lines + fuel))) h self state
    (World (lines ++ line :: rest) out)
  = (let* state' := call_exec_func (_enter_next_level (S fuel) h) optn in
     enter_loop (S fuel) h self state')
      (World rest
         (out
          +:+ (if again || is_code state _ENTER_CODE
               then menu_text l r t b e f sm titles else "")
          +:+ option_prompt +:+ ": "
          +:+ Py.str_rep
                ("No such option. " +:+ nl
                 +:+ (if again then menu_text l r t b e f sm titles else "")
                 +:+ option_prompt +:+ ": ")
                (length lines))).
Proof.
  induction lines as [|line' lines IH];
    intros state out Hloop Hall Hcheck Hk Hc Hoptn.
  - simpl length. simpl Py.str_rep. simpl app.
    rewrite enter_loop_round, Hloop.
    erewrite bind_Done by (eapply valid_choice; eassumption).
    cbv beta iota.
    erewrite bind_Done by (eapply get_node_found; exact Hoptn).
    now autorewrite with str.
  - apply Forall_cons in Hall as [Hline Hall].
    change (S (S (length (line' :: lines) + fuel)))
      with (S (S (S (length lines + fuel)))).
    change ((line' :: lines) ++ line :: rest)
      with (line' :: (lines ++ line :: rest)).
    rewrite failed_choice_round by assumption.
    rewrite (IH VNone _ eq_refl Hall Hcheck Hk Hc Hoptn).
    cbn [length is_code]. rewrite orb_false_r.
    simpl Py.str_rep. now rewrite !append_assoc.
Qed.

End Redraw.

(** C4. On a node with children, under a configuration that sets every
    key, in every round of the loop the menu (whose text is never empty)
    is printed exactly when [draw_menu_again] is set or the state is
    [_ENTER_CODE], and the state is [None] by the time the choice is
    requested. So, from any state on which the loop goes on:
    - after any number of lines that are not the number of an option,
      the console holds the menu of the first round if [draw_menu_again]
      is set or the state was [_ENTER_CODE], the prompt, and for each
      such line the error message, the menu only if [draw_menu_again] is
      set, and the prompt again; at the end of the input [input] raises
      [EOFError] there;
    - a line that is the number of an option, after any number of lines
      that are not, has the action of that option called on that very
      console. What the action raises, the loop raises; on
      [_RETURN_CODE] or [_QUIT_CODE] the loop ends; on any other state
      the loop goes on from it, and the round after prints the menu
      exactly when [draw_menu_again] is set or that state is
      [_ENTER_CODE]. *)
Theorem redraw_rule h (self : node_id) nd l r t b e f sm again titles :
  h !! self = Some nd ->
  menu_config nd
  = full_config (Z.of_nat l) (Z.of_nat r) (Z.of_nat t) (Z.of_nat b)
      (String e "") (String f "") sm again ->
  child_titles h nd titles ->
  titles <> [] ->
  let menu := menu_text l r t b e f sm titles in
  let drawn state := if again || is_code state _ENTER_CODE then menu else "" in
  let ask := option_prompt +:+ ": " in
  let refused :=
    "No such option. " +:+ nl +:+ (if again then menu else "") +:+ ask in
  let refuses line :=
    option_check (Py.len_list (children nd)) line = Ok false in
  menu <> ""
  /\ (forall fuel state lines out,
        keeps_looping state = true ->
        Forall refuses lines ->
        enter_loop (S (S (length lines + fuel))) h self state
          (World lines out)
        = Raised EOFError
            (World []
               (out +:+ drawn state +:+ ask
                +:+ Py.str_rep refused (length lines))))
  /\ (forall fuel state lines line k (c : node_id) optn rest out,
        keeps_looping state = true ->
        Forall refuses lines ->
        option_check (Py.len_list (children nd)) line = Ok true ->
        Py.int line = Some k ->
        children nd !! Z.to_nat (k - 1) = Some c ->
        h !! c = Some optn ->
        let run :=
          enter_loop (S (S (S (length lines + fuel)))) h self state
            (World (lines ++ line :: rest) out) in
        let called :=
          call_exec_func (_enter_next_level (S (S fuel)) h) optn
            (World rest
               (out +:+ drawn state +:+ ask
                +:+ Py.str_rep refused (length lines))) in
        (forall ex w2, called = Raised ex w2 -> run = Raised ex w2)
        /\ (forall w2,
              called = Done (VInt _RETURN_CODE) w2 ->
              run = Done (VInt _ENTER_CODE) w2)
        /\ (forall w2,
              called = Done (VInt _QUIT_CODE) w2 ->
              run = Done (VInt _QUIT_CODE) w2)
        /\ (forall state' w2,
              called = Done state' w2 ->
              keeps_looping state' = true ->
              run = enter_loop (S (S fuel)) h self state' w2
              /\ (stdin w2 = [] ->
                  run = Raised EOFError
                          (World []
                             (stdout w2 +:+ drawn state' +:+ ask))))).
Proof.
  intros Hself Hcfg Htitles Hne menu drawn ask refused refuses.
  split; [apply menu_text_not_empty | split].
  - intros fuel state lines out Hloop Hall.
    now apply (failed_choices_eof h self nd l r t b e f sm again titles).
  - intros fuel state lines line k c optn rest out Hloop Hall Hcheck Hk Hc
      Hoptn run called.
    assert (Hrun : run
      = (let* state' :=
           call_exec_func (_enter_next_level (S (S fuel)) h) optn in
         enter_loop (S (S fuel)) h self state')
          (World rest
             (out +:+ drawn state +:+ ask
              +:+ Py.str_rep refused (length lines)))).
    { subst run.
      replace (S (S (S (length lines + fuel))))
        with (S (S (length lines + S fuel))) by lia.
      now apply (failed_choices_chosen h self nd l r t b e f sm again titles
                   Hself Hcfg Htitles Hne (S fuel) line k c optn rest lines). }
    subst called. unfold bind in Hrun.
    split; [|split; [|split]].
    + intros ex w2 Hcall. now rewrite Hrun, Hcall.
    + intros w2 Hcall. now rewrite Hrun, Hcall.
    + intros w2 Hcall. now rewrite Hrun, Hcall.
    + intros state' w2 Hcall Hloop'. rewrite Hrun, Hcall.
      split; [reflexivity|].
      intros Hin. destruct w2 as [inp2 out2]. simpl in Hin. subst inp2.
      now apply (last_round h self nd l r t b e f sm again titles).
Qed.

Lemma redraw_rule_witness :
  enter_loop 4 (menu_heap DEFAULT_MENU_CONFIG) 0 (VInt _ENTER_CODE)
    (World ["9"; "x"] "")
  = Raised EOFError
      (World []
         (menu_text 2 10 1 1 "#" " " ". "
            ["New [d]"; "Open File"; "Save"; "[Exit]"]
          +:+ option_prompt +:+ ": " +:+ "No such option. " +:+ nl
          +:+ option_prompt +:+ ": " +:+ "No such option. " +:+ nl
          +:+ option_prompt +:+ ": "))
  /\ enter_loop 4 (menu_heap DEFAULT_MENU_CONFIG) 0 VNone
       (World ["9"; "4"; "1"] "")
     = Done (VInt _QUIT_CODE)
         (World ["1"]
            (option_prompt +:+ ": " +:+ "No such option. " +:+ nl
             +:+ option_prompt +:+ ": "))
  /\ enter_loop 3 (menu_heap DEFAULT_MENU_CONFIG) 0 (VInt _ENTER_CODE)
       (World ["3"] "")
     = Raised EOFError
         (World []
            (menu_text 2 10 1 1 "#" " " ". "
               ["New [d]"; "Open File"; "Save"; "[Exit]"]
             +:+ option_prompt +:+ ": " +:+ "No function" +:+ nl
             +:+ option_prompt +:+ ": "))
  /\ enter_loop 3 (menu_heap DEFAULT_MENU_CONFIG) 0 VNone
       (World ["1"; "1"] "")
     = Raised EOFError
         (World []
            (option_prompt +:+ ": "
             +:+ menu_text 2 10 1 1 "#" " " ". "
                   ["[Back]"; "New File"; "New Folder"; "[Exit]"]
             +:+ option_prompt +:+ ": "
             +:+ menu_text 2 10 1 1 "#" " " ". "
                   ["New [d]"; "Open File"; "Save"; "[Exit]"]
             +:+ option_prompt +:+ ": ")).
Proof.
  destruct (redraw_rule (menu_heap DEFAULT_MENU_CONFIG) 0%nat
              (menu_node "Main Menu [d]" (EnterNextLevel 0) []
                 DEFAULT_MENU_CONFIG [1; 6; 7; 8]%nat true)
              2 10 1 1 "#" " " ". " false
              ["New [d]"; "Open File"; "Save"; "[Exit]"])
    as (_ & Heof & Hchosen).
  - reflexivity.
  - reflexivity.
  - repeat constructor; eexists; split; reflexivity.
  - discriminate.
  - split; [|split; [|split]].
    + apply (Heof 2%nat (VInt _ENTER_CODE) ["9"; "x"] "");
        [reflexivity | repeat constructor].
    + refine (proj1 (proj2 (proj2
               (Hchosen 0%nat VNone ["9"] "4" 4 8%nat
                  (menu_node "[Exit]" (QuitingLevel 0) []
                     DEFAULT_MENU_CONFIG [] false)
                  ["1"] "" _ _ _ _ _ _))) _ _);
        try reflexivity.
      repeat constructor.
    + refine (proj2 (proj2 (proj2 (proj2
               (Hchosen 0%nat (VInt _ENTER_CODE) [] "3" 3 7%nat
                  (menu_node "Save" DefaultFunc []
                     DEFAULT_MENU_CONFIG [] false)
                  [] "" _ _ _ _ _ _))) VNone
               (World []
                  (menu_text 2 10 1 1 "#" " " ". "
                     ["New [d]"; "Open File"; "Save"; "[Exit]"]
                   +:+ option_prompt +:+ ": " +:+ "No function" +:+ nl))
               _ _) _);
        try reflexivity.
      constructor.
    + refine (proj2 (proj2 (proj2 (proj2
               (Hchosen 0%nat VNone [] "1" 1 1%nat
                  (menu_node "New [d]" (EnterNextLevel 1) []
                     DEFAULT_MENU_CONFIG [2; 3; 4; 5]%nat false)
                  ["1"] "" _ _ _ _ _ _))) (VInt _ENTER_CODE)
               (World []
                  (option_prompt +:+ ": "
                   +:+ menu_text 2 10 1 1 "#" " " ". "
                         ["[Back]"; "New File"; "New Folder"; "[Exit]"]
                   +:+ option_prompt +:+ ": "))
               _ _) _);
        try reflexivity.
      constructor.
Defined.

(** ** [start_loop] *)

(** C5, the code at the failing inputs. [start_loop] on a root that has
    been given no option raises [ValueError], from [max] of an empty list
    in [_get_max_length_of_option_titles]; [test_helper], whose
    configuration sets two keys only, raises [KeyError] at the first read
    of [draw_menu_again]; an option created with arguments and then given
    options of its own raises [TypeError] when it is chosen, the traversal
    being called with those arguments. On a node that is not the root
    [start_loop] does print its message and return. *)
Theorem start_loop_raises :
  (forall fuel inp,
      (let* '(h, ch) := CliHelper [] None true in
       start_loop (S fuel) h ch) (World inp "")
      = Raised ValueError (World inp banner))
  /\ (forall fuel inp,
        test_helper (S fuel) (Some test_config) (World inp "")
        = Raised (KeyError "draw_menu_again") (World inp banner))
  /\ (forall fuel inp,
        start_loop (S (S fuel)) folder_heap 0 (World ("1" :: inp) "")
        = Raised TypeError
            (World inp
               (menu_text 2 10 1 1 "#" " " ". " ["New Folder [d]"]
                +:+ option_prompt +:+ ": ")))
  /\ (forall fuel inp out,
        start_loop fuel (menu_heap DEFAULT_MENU_CONFIG) 1 (World inp out)
        = Done tt
            (World inp
               (out +:+ "Current option is not the root option. Exit."
                +:+ nl))).
Proof. repeat split. Qed.

(** * Further properties *)

(** ** [request_input]: what it does to the console *)

(** A call that returns has only added to the text printed, and has only
    taken lines from the front of the input, at least one. *)
Lemma console_after_request_input fuel : forall prompt_msg err_msg o w,
  match request_input fuel prompt_msg err_msg o w with
  | Done _ w' =>
      (exists k, (0 < k)%nat /\ stdin w' = drop k (stdin w))
      /\ (exists s, stdout w' = stdout w +:+ s)
  | _ => True
  end.
Proof.
  induction fuel as [|fuel IH]; intros p e o [[|line rest] out].
  - exact I.
  - exact I.
  - rewrite request_input_eof. exact I.
  - rewrite request_input_round. cbv zeta.
    destruct (has_quit_val o && _).
    { simpl. split; [exists 1%nat; split; [lia | reflexivity]|].
      rewrite append_assoc. eauto. }
    set (w1 := World rest _).
    assert (Hconf :
      match confirmation (request_input fuel) o (submitted o line) w1 with
      | Done _ w2 =>
          (exists k, stdin w2 = drop k rest)
          /\ (exists s, stdout w2 = out +:+ s)
      | _ => True
      end).
    { unfold confirmation. destruct (need_confirm o).
      - unfold bind.
        specialize (IH (confirm_prompt (submitted o line)) "Invalid value."
                      confirm_options w1).
        destruct (request_input fuel _ _ confirm_options w1)
          as [[v b] w2|? ?| |]; simpl in *; try exact I.
        destruct IH as [(k & _ & Hk) (s & Hs)].
        split; [eauto|]. rewrite Hs, append_assoc. eauto.
      - simpl. split; [exists 0%nat; reflexivity | eauto]. }
    unfold bind at 1.
    destruct (confirmation _ o _ w1) as [rej w2|? ?| |]; simpl;
      try exact I.
    destruct Hconf as [(k & Hk) (s & Hs)].
    assert (Hnext : forall w3,
      stdin w3 = stdin w2 -> (exists s3, stdout w3 = out +:+ s3) ->
      match request_input fuel p e o w3 with
      | Done _ w' =>
          (exists k', (0 < k')%nat /\ stdin w' = drop k' (line :: rest))
          /\ (exists s', stdout w' = out +:+ s')
      | _ => True
      end).
    { intros w3 Hin (s3 & Hout). specialize (IH p e o w3).
      destruct (request_input fuel p e o w3) as [r w'|? ?| |];
        try exact I.
      destruct IH as [(k' & Hk' & Hd) (s' & Hs')].
      split.
      + exists (S (k + k')). split; [lia|].
        rewrite Hd, Hin, Hk. simpl. now rewrite drop_drop.
      + rewrite Hs', Hout, append_assoc. eauto. }
    assert (Hhere :
      (exists k', (0 < k')%nat /\ stdin w2 = drop k' (line :: rest))).
    { exists (S k). split; [lia | exact Hk]. }
    destruct rej; [apply Hnext; eauto|].
    unfold validation.
    destruct (check_func o) as [f|]; [|simpl; split; eauto].
    unfold bind at 1.
    destruct (f (submitted o line)) as [[|]|ex]; simpl;
      [split; eauto | | exact I].
    destruct (ask_again o); io.
    + apply Hnext; [reflexivity|]. simpl. rewrite Hs, append_assoc. eauto.
    + split; [exact Hhere|]. rewrite Hs, append_assoc. eauto.
Qed.

(** X1. A call of [request_input] that returns has taken one line or more
    from the front of the lines typed and none from anywhere else, and has
    only added to the text already printed. *)
Theorem request_input_console fuel prompt_msg err_msg o w r w' :
  request_input fuel prompt_msg err_msg o w = Done r w' ->
  (exists k, (0 < k)%nat /\ stdin w' = drop k (stdin w))
  /\ (exists s, stdout w' = stdout w +:+ s).
Proof.
  intros H.
  pose proof (console_after_request_input fuel prompt_msg err_msg o w) as Ho.
  now rewrite H in Ho.
Qed.

Lemma request_input_console_witness :
  (exists k, (0 < k)%nat /\ [] = drop k ["12"; "Y"])
  /\ (exists s,
        "Enter a number (Default [4]): "
        +:+ "Do you confirm the value [12] (yes/no): "
        +:+ "Invalid value. " +:+ nl
        = "" +:+ s).
Proof.
  exact (request_input_console 3 "Enter a number" "Invalid value."
           test_req_options (World ["12"; "Y"] "") ("", false)
           (World []
              ("Enter a number (Default [4]): "
               +:+ "Do you confirm the value [12] (yes/no): "
               +:+ "Invalid value. " +:+ nl))
           eq_refl).
Defined.

Lemma In_drop {A} (x : A) k l : In x (drop k l) -> In x l.
Proof.
  revert l. induction k as [|k IH]; intros [|y l] H; simpl in *; auto.
Qed.

(** ** [request_input]: what it accepts *)

(** X2. A value that [request_input] returns as accepted is what one of
    the lines typed stands for (the line itself, or [default_val] for an
    empty line when there is a default); the validator, if there is one,
    holds of it; and it is not [quit_val] when the quit value is in
    use. *)
Theorem accepted_value_is_valid fuel : forall prompt_msg err_msg o w v w',
  request_input fuel prompt_msg err_msg o w = Done (v, true) w' ->
  (exists line, In line (stdin w) /\ v = submitted o line)
  /\ (forall f, check_func o = Some f -> f v = Ok true)
  /\ (has_quit_val o = true -> v <> quit_val o).
Proof.
  induction fuel as [|fuel IH]; intros p e o [[|line rest] out] v w' H.
  - discriminate.
  - discriminate.
  - now rewrite request_input_eof in H.
  - rewrite request_input_round in H. cbv zeta in H.
    destruct (has_quit_val o && _) eqn:Hq; [discriminate|].
    apply bind_Done_inv in H as (rej & w2 & Hconf & H).
    assert (Hin2 : forall x, In x (stdin w2) -> In x (line :: rest)).
    { unfold confirmation in Hconf. destruct (need_confirm o).
      - apply bind_Done_inv in Hconf as ([r s] & w3 & Hr & Hret).
        injection Hret as _ <-.
        pose proof (console_after_request_input fuel
                      (confirm_prompt (submitted o line)) "Invalid value."
                      confirm_options
                      (World rest (out +:+ prompt_text p o))) as Hcons.
        rewrite Hr in Hcons. destruct Hcons as [(k & _ & Hk) _].
        intros x Hx. right. rewrite Hk in Hx. simpl in Hx.
        now apply In_drop in Hx.
      - injection Hconf as _ <-. intros x Hx. now right. }
    assert (Hrec : forall w3,
      stdin w3 = stdin w2 ->
      request_input fuel p e o w3 = Done (v, true) w' ->
      (exists line0, In line0 (line :: rest) /\ v = submitted o line0)
      /\ (forall f, check_func o = Some f -> f v = Ok true)
      /\ (has_quit_val o = true -> v <> quit_val o)).
    { intros w3 Hst Hr. destruct (IH _ _ _ _ _ _ Hr) as [(l0 & Hl0 & Hv) Hrest].
      split; [|exact Hrest]. exists l0. split; [|exact Hv].
      apply Hin2. now rewrite <- Hst. }
    destruct rej; [now apply (Hrec w2)|].
    unfold validation in H.
    assert (Hthis : v = submitted o line ->
      (has_quit_val o = true -> v <> quit_val o)).
    { intros -> Hhas Heq. rewrite Hhas in Hq. simpl in Hq.
      apply String.eqb_neq in Hq. contradiction. }
    destruct (check_func o) as [f|] eqn:Hf.
    + unfold bind at 1 in H.
      destruct (f (submitted o line)) as [[|]|ex] eqn:Hfv; simpl in H.
      * injection H as <- _.
        split; [exists line; split; [now left | reflexivity]|].
        split; [|now apply Hthis].
        intros f' Hf'. injection Hf' as <-. exact Hfv.
      * destruct (ask_again o); io; [|discriminate].
        revert H. io. intros H.
        exact (Hrec (World (stdin w2) _) eq_refl H).
      * discriminate.
    + injection H as <- _.
      split; [exists line; split; [now left | reflexivity]|].
      split; [discriminate | now apply Hthis].
Qed.

Lemma accepted_value_is_valid_witness :
  (exists line,
      In line ["12"; "y"; ""; "yes"]
      /\ "4" = submitted test_req_retry_options line)
  /\ (forall f,
        check_func test_req_retry_options = Some f -> f "4" = Ok true)
  /\ (has_quit_val test_req_retry_options = true ->
      "4" <> quit_val test_req_retry_options).
Proof.
  exact (accepted_value_is_valid 4 "Enter a number" "Invalid value."
           test_req_retry_options
           (World ["12"; "y"; ""; "yes"] "") "4"
           (World []
              ("Enter a number (Default [4]): "
               +:+ "Do you confirm the value [12] (yes/no): "
               +:+ "Invalid value. Please enter again." +:+ nl
               +:+ "Enter a number (Default [4]): "
               +:+ "Do you confirm the value [4] (yes/no): "))
           eq_refl).
Defined.



(** X4. With [need_confirm], once a value has passed the quit check and
    the confirmation prompt has got an answer its validator accepts: if
    the answer is [n] or [no], exactly as typed, the loop starts again
    from the prompt; on any other answer the value goes on to
    validation. *)
Theorem confirmation_verdict fuel prompt_msg err_msg o line a rest out :
  need_confirm o = true ->
  confirm_check a = true ->
  has_quit_val o && String.eqb (submitted o line) (quit_val o) = false ->
  request_input (S (S fuel)) prompt_msg err_msg o
    (World (line :: a :: rest) out)
  = (if Py.str_in a ["n"; "no"]
     then request_input (S fuel) prompt_msg err_msg o
     else validation (request_input (S fuel) prompt_msg err_msg o)
            err_msg o (submitted o line))
      (World rest
         (out +:+ prompt_text prompt_msg o
          +:+ confirm_prompt (submitted o line) +:+ ": ")).
Proof.
  intros Hn Ha Hq.
  rewrite request_input_round. cbv zeta. rewrite Hq.
  erewrite bind_Done by (now apply confirmation_answer).
  rewrite !append_assoc. reflexivity.
Qed.

Lemma confirmation_verdict_witness :
  request_input 2 "Enter a number" "Invalid value." test_req_options
    (World ["5"; "Yes"] "")
  = Done ("5", true)
      (World []
         ("" +:+ "Enter a number (Default [4]): "
          +:+ "Do you confirm the value [5] (yes/no)" +:+ ": ")).
Proof.
  apply (confirmation_verdict 0 "Enter a number" "Invalid value."
           test_req_options "5" "Yes" [] ""); reflexivity.
Defined.

(** X5. Without confirmation, and with no validator or with [ask_again]
    off, a call never goes round the loop twice: it reads exactly one line
    and returns, either the value the line stands for, as accepted, or
    [("", False)]; when the validator raises instead of answering, the
    call has read that one line and raises the same. *)
Theorem single_round fuel prompt_msg err_msg o line rest out :
  need_confirm o = false ->
  check_func o = None \/ ask_again o = false ->
  ((forall f, check_func o = Some f ->
              exists b, f (submitted o line) = Ok b) ->
   exists r out',
     request_input (S fuel) prompt_msg err_msg o (World (line :: rest) out)
     = Done r (World rest out')
     /\ (r = (submitted o line, true) \/ r = ("", false)))
  /\ (forall f e,
        check_func o = Some f ->
        f (submitted o line) = Err e ->
        has_quit_val o && String.eqb (submitted o line) (quit_val o)
        = false ->
        request_input (S fuel) prompt_msg err_msg o
          (World (line :: rest) out)
        = Raised e (World rest (out +:+ prompt_text prompt_msg o))).
Proof.
  intros Hn Hone. split.
  - intros Hans.
    rewrite request_input_round. cbv zeta.
    destruct (has_quit_val o && _); [eauto|].
    unfold confirmation, validation. rewrite Hn. unfold bind at 1, ret at 1.
    destruct (check_func o) as [f|]; [|unfold ret; eauto].
    destruct Hone as [Hnone | Hagain]; [discriminate|]. rewrite Hagain.
    destruct (Hans f eq_refl) as [ans Hf]. unfold bind at 1.
    rewrite Hf. destruct ans; io; eauto.
  - intros f e Hf He Hq.
    rewrite request_input_round. cbv zeta. rewrite Hq.
    unfold confirmation. rewrite Hn. unfold bind at 1, ret at 1.
    now rewrite (validation_answer _ _ _ f) by exact Hf; rewrite He.
Qed.

Lemma single_round_witness :
  (exists r out',
      request_input 1 option_prompt "No such option." (option_options 4)
        (World ["7"; "2"] "")
      = Done r (World ["2"] out')
      /\ (r = (submitted (option_options 4) "7", true) \/ r = ("", false)))
  /\ request_input 1 option_prompt "No such option." (option_options 4)
       (World [superscript_two; "2"] "")
     = Raised ValueError
         (World ["2"] ("" +:+ prompt_text option_prompt (option_options 4))).
Proof.
  split.
  - apply (proj1 (single_round 0 option_prompt "No such option."
                    (option_options 4) "7" ["2"] "" eq_refl
                    (or_intror eq_refl))).
    intros f Hf. injection Hf as <-. exists false. reflexivity.
  - apply (proj2 (single_round 0 option_prompt "No such option."
                    (option_options 4) superscript_two ["2"] "" eq_refl
                    (or_intror eq_refl))
             (option_check 4) ValueError); reflexivity.
Defined.

(** ** [_request_option]: the choice *)

(** X6. [_request_option] never asks twice: it prints its prompt and
    reads one line. On a line of which [str.isdigit] holds and that [int]
    does not convert (one with a superscript digit, or of more than 4300
    digits) it raises [ValueError], from inside its validator, with the
    line read and nothing printed after the prompt; on any other line it
    returns, [None] whenever the node has no children; at the end of the
    input it raises [EOFError] after its prompt. *)
Theorem request_option_reads_one_line fuel h self nd out :
  h !! self = Some nd ->
  _request_option (S fuel) h self (World [] out)
  = Raised EOFError (World [] (out +:+ option_prompt +:+ ": "))
  /\ (forall line rest,
        (Py.isdigit line = true -> Py.int line = None ->
         _request_option (S fuel) h self (World (line :: rest) out)
         = Raised ValueError (World rest (out +:+ option_prompt +:+ ": ")))
        /\ (Py.isdigit line = false \/ Py.int line <> None ->
            exists r out',
              _request_option (S fuel) h self (World (line :: rest) out)
              = Done r (World rest out')
              /\ (children nd = [] -> r = None))).
Proof.
  intros Hself. split.
  - unfold _request_option.
    erewrite bind_Done by (eapply get_node_found; eassumption).
    unfold bind. rewrite request_input_eof. reflexivity.
  - intros line rest.
    pose proof (option_choice fuel h self nd line rest out
                  Hself) as H.
    destruct (option_check (Py.len_list (children nd)) line)
      as [[|]|e] eqn:Hck.
    + destruct (option_check_accepts _ _ Hck) as (Hd & k' & Hk' & _).
      split; [intros _ Hnone; congruence|]. intros _.
      destruct H as (c & (k & _ & Hc) & Hr). exists (Some c). eexists.
      split; [exact Hr|]. intros Hnil. rewrite Hnil in Hc. discriminate.
    + split; [|eauto]. intros Hd Hnone.
      assert (Herr : option_check (Py.len_list (children nd)) line
                     = Err ValueError)
        by (apply option_check_raises; auto).
      congruence.
    + apply option_check_raises in Hck as (-> & Hd & Hnone).
      split; [intros _ _; exact H|].
      intros [Hd' | Hsome]; congruence.
Qed.

Lemma request_option_reads_one_line_witness :
  _request_option 1 folder_heap 2 (World [superscript_two; "1"] "")
  = Raised ValueError (World ["1"] ("" +:+ option_prompt +:+ ": "))
  /\ (exists r out',
        _request_option 1 folder_heap 2 (World ["7"; "1"] "")
        = Done r (World ["1"] out')
        /\ (children (menu_node "Here" DefaultFunc [] DEFAULT_MENU_CONFIG
                        [] false) = [] -> r = None)).
Proof.
  split.
  - apply (proj1 (proj2 (request_option_reads_one_line 0 folder_heap 2%nat
                    (menu_node "Here" DefaultFunc [] DEFAULT_MENU_CONFIG []
                       false) "" eq_refl) superscript_two ["1"]));
      reflexivity.
  - apply (proj2 (proj2 (request_option_reads_one_line 0 folder_heap 2%nat
                    (menu_node "Here" DefaultFunc [] DEFAULT_MENU_CONFIG []
                       false) "" eq_refl) "7" ["1"])).
    right. discriminate.
Defined.

(** ** [add_option] and [CliHelper]: the shape of the heap *)

(** A call of [add_option], spelled out. *)
Lemma add_option_effect h self title_ exec_func_ args_ kwargs_ h1 id :
  add_option h self title_ exec_func_ args_ kwargs_ = Some (h1, id) ->
  exists nd nd1,
    h !! self = Some nd
    /\ id = length h
    /\ length h1 = S (length h)
    /\ h1 !! id
       = Some (new_node title_ exec_func_ args_ kwargs_
                 (Some (menu_config nd)) false)
    /\ h1 !! self = Some nd1
    /\ children nd1 = children nd ++ [id]
    /\ args nd1 = args nd /\ kwargs nd1 = kwargs nd
    /\ menu_config nd1 = menu_config nd /\ _is_root nd1 = _is_root nd
    /\ (forall j : node_id,
          j <> self -> (j < length h)%nat -> h1 !! j = h !! j).
Proof.
  unfold add_option. intros Hadd.
  destruct (h !! self) as [nd|] eqn:Hself; [|discriminate].
  cbv zeta in Hadd. injection Hadd as <- <-.
  pose proof (lookup_lt_Some _ _ _ Hself) as Hlt.
  exists nd. eexists. split; [reflexivity|]. split; [reflexivity|].
  split; [rewrite length_app, length_insert; simpl; lia|].
  split.
  { rewrite lookup_app_r by (rewrite length_insert; lia).
    rewrite length_insert, Nat.sub_diag. reflexivity. }
  split.
  { rewrite lookup_app_l by (rewrite length_insert; exact Hlt).
    apply list_lookup_insert_eq. exact Hlt. }
  repeat split.
  intros j Hne Hj.
  rewrite lookup_app_l by (rewrite length_insert; exact Hj).
  apply list_lookup_insert_ne. congruence.
Qed.

(** A call of [CliHelper], spelled out. *)
Lemma CliHelper_effect h menu_config_ show_version w h' ch w' :
  CliHelper h menu_config_ show_version w = Done (h', ch) w' ->
  ch = length h
  /\ h' = h ++ [new_node "Main Menu" None None None menu_config_ true]
  /\ stdin w' = stdin w
  /\ stdout w' = stdout w +:+ (if show_version then banner else "").
Proof.
  unfold CliHelper. intros H.
  destruct show_version; io; revert H; io; intros H;
    injection H as <- <- <-; repeat split; now autorewrite with str.
Qed.

Lemma add_option_well_formed h self title_ exec_func_ args_ kwargs_ h1 id :
  well_formed h ->
  add_option h self title_ exec_func_ args_ kwargs_ = Some (h1, id) ->
  well_formed h1.
Proof.
  intros Hwf Hadd.
  destruct (add_option_effect _ _ _ _ _ _ _ _ Hadd)
    as (nd & nd1 & Hself & -> & Hlen & Hnew & Hself1 & Hch & _ & _ & _ & _
        & Hother).
  pose proof (lookup_lt_Some _ _ _ Hself) as Hlt.
  intros i ndi Hi. rewrite Hlen.
  destruct (decide (i = self)) as [Heq|Hne]; [subst i|].
  - rewrite Hself1 in Hi. injection Hi as <-. rewrite Hch.
    apply Forall_app. split.
    + eapply Forall_impl; [exact (Hwf _ _ Hself)|]. simpl. lia.
    + repeat constructor; lia.
  - destruct (decide (i = length h)) as [Heq|Hne']; [subst i|].
    + rewrite Hnew in Hi. injection Hi as <-. constructor.
    + assert (Hi' : (i < length h)%nat).
      { apply lookup_lt_Some in Hi. lia. }
      rewrite Hother in Hi by assumption.
      eapply Forall_impl; [exact (Hwf _ _ Hi)|]. simpl. lia.
Qed.

Lemma built_well_formed h : built h -> well_formed h.
Proof.
  induction 1 as [|h cfg sv w h' ch w' _ IH Hroot
                  |h self t f a k h' id _ IH Hadd].
  - intros i nd Hi. discriminate.
  - apply CliHelper_effect in Hroot as (_ & -> & _ & _).
    intros i nd Hi. rewrite length_app. simpl.
    destruct (decide (i < length h)%nat) as [Hlt|Hge].
    + rewrite lookup_app_l in Hi by exact Hlt.
      eapply Forall_impl; [exact (IH _ _ Hi)|]. simpl. lia.
    + rewrite lookup_app_r in Hi by lia.
      destruct (i - length h)%nat; [|destruct n; discriminate].
      injection Hi as <-. constructor.
  - exact (add_option_well_formed _ _ _ _ _ _ _ _ IH Hadd).
Qed.

(** X7. In every heap the host can build, the children of a node are
    existing nodes, each created after the node that lists it, and no
    node is listed twice, be it by one parent or by two: the options form
    trees. *)
Theorem built_heaps_are_forests h :
  built h ->
  well_formed h
  /\ (forall (i : node_id) nd, h !! i = Some nd -> NoDup (children nd))
  /\ (forall (i j : node_id) nd nd' c,
        h !! i = Some nd -> h !! j = Some nd' ->
        In c (children nd) -> In c (children nd') -> i = j).
Proof.
  intros Hb. split; [now apply built_well_formed|].
  induction Hb as [|h cfg sv w h' ch w' Hb IH Hroot
                   |h self t f a k h' id Hb IH Hadd].
  - split; intros; discriminate.
  - apply CliHelper_effect in Hroot as (_ & -> & _ & _).
    destruct IH as [IHd IHp].
    assert (Hget : forall (i : node_id) nd,
                   (h ++ [new_node "Main Menu" None None None
                            cfg true]) !! i = Some nd ->
                   h !! i = Some nd \/ children nd = []).
    { intros i nd Hi.
      destruct (decide (i < length h)%nat) as [Hlt|Hge].
      - left. now rewrite lookup_app_l in Hi.
      - right. rewrite lookup_app_r in Hi by lia.
        destruct (i - length h)%nat; [|destruct n; discriminate].
        now injection Hi as <-. }
    split.
    + intros i nd Hi. destruct (Hget _ _ Hi) as [Hi'|Hnil].
      * exact (IHd _ _ Hi').
      * rewrite Hnil. constructor.
    + intros i j nd nd' c Hi Hj Hc Hc'.
      destruct (Hget _ _ Hi) as [Hi'|Hnil]; [|rewrite Hnil in Hc; easy].
      destruct (Hget _ _ Hj) as [Hj'|Hnil]; [|rewrite Hnil in Hc'; easy].
      exact (IHp _ _ _ _ _ Hi' Hj' Hc Hc').
  - pose proof (built_well_formed _ Hb) as Hwf.
    destruct IH as [IHd IHp].
    destruct (add_option_effect _ _ _ _ _ _ _ _ Hadd)
      as (nd0 & nd1 & Hself & -> & Hlen & Hnew & Hself1 & Hch & _ & _ & _
          & _ & Hother).
    assert (Hfresh : forall (i : node_id) nd, h !! i = Some nd ->
                       ~ In (length h) (children nd)).
    { intros i nd Hi Hin. specialize (Hwf _ _ Hi).
      rewrite Forall_forall in Hwf.
      apply list_elem_of_In, Hwf in Hin. lia. }
    assert (Hget : forall (i : node_id) nd, h' !! i = Some nd ->
      (i = self /\ nd = nd1)
      \/ (i <> self /\ h !! i = Some nd)
      \/ children nd = []).
    { intros i nd Hi.
      destruct (decide (i = self)) as [Heq|Hne]; [subst i|].
      - left. rewrite Hself1 in Hi. now injection Hi as <-.
      - destruct (decide (i = length h)) as [Heq|Hne']; [subst i|].
        + right. right. rewrite Hnew in Hi. now injection Hi as <-.
        + right. left. split; [exact Hne|].
          rewrite <- Hother; [exact Hi | exact Hne |].
          apply lookup_lt_Some in Hi. lia. }
    split.
    + intros i nd Hi.
      destruct (Hget _ _ Hi) as [[-> ->] | [[_ Hi'] | Hnil]].
      * rewrite Hch. apply NoDup_app. split; [exact (IHd _ _ Hself)|].
        split; [|repeat constructor; easy].
        intros x Hx Hx'. apply list_elem_of_In in Hx.
        apply list_elem_of_In in Hx'. destruct Hx' as [<-|[]].
        exact (Hfresh _ _ Hself Hx).
      * exact (IHd _ _ Hi').
      * rewrite Hnil. constructor.
    + intros i j nd nd' c Hi Hj Hc Hc'.
      destruct (Hget _ _ Hi) as [[-> ->] | [[Hne Hi'] | Hnil]];
        [| |rewrite Hnil in Hc; easy];
        (destruct (Hget _ _ Hj) as [[-> ->] | [[Hne' Hj'] | Hnil']];
         [| |rewrite Hnil' in Hc'; easy]); try reflexivity.
      * rewrite Hch in Hc. apply in_app_or in Hc as [Hc|[<-|[]]].
        -- exfalso. apply Hne'.
           exact (IHp _ _ _ _ _ Hj' Hself Hc' Hc).
        -- exfalso. exact (Hfresh _ _ Hj' Hc').
      * rewrite Hch in Hc'. apply in_app_or in Hc' as [Hc'|[<-|[]]].
        -- exfalso. apply Hne. exact (IHp _ _ _ _ _ Hi' Hself Hc Hc').
        -- exfalso. exact (Hfresh _ _ Hi' Hc).
      * exact (IHp _ _ _ _ _ Hi' Hj' Hc Hc').
Qed.

(** The heap of three nodes can be built. *)
Lemma built_folder_heap : built folder_heap.
Proof.
  apply (built_option
           [menu_node "Main Menu [d]" (EnterNextLevel 0) []
              DEFAULT_MENU_CONFIG [1%nat] true;
            menu_node "New Folder" new_folder ["Temp"] DEFAULT_MENU_CONFIG
              [] false]
           1%nat "Here" None None None folder_heap 2%nat);
    [|vm_compute; reflexivity].
  apply (built_option
           [new_node "Main Menu" None None None None true]
           0%nat "New Folder" (Some new_folder) (Some ["Temp"]) None
           _ 1%nat);
    [|vm_compute; reflexivity].
  apply (built_root [] None false (World [] "") _ 0%nat (World [] ""));
    [|vm_compute; reflexivity].
  apply built_nothing.
Defined.

Lemma built_heaps_are_forests_witness :
  well_formed folder_heap
  /\ (forall (i : node_id) nd,
        folder_heap !! i = Some nd -> NoDup (children nd))
  /\ (forall (i j : node_id) nd nd' c,
        folder_heap !! i = Some nd -> folder_heap !! j = Some nd' ->
        In c (children nd) -> In c (children nd') -> i = j).
Proof. exact (built_heaps_are_forests folder_heap built_folder_heap). Defined.

(** Every option has the configuration of the node that lists it, and is
    not a root. *)
Lemma built_children h :
  built h ->
  forall (i c : node_id) nd cn,
    h !! i = Some nd -> In c (children nd) -> h !! c = Some cn ->
    menu_config cn = menu_config nd /\ _is_root cn = false.
Proof.
  intros Hb.
  induction Hb as [|h cfg sv w h' ch w' Hb IH Hroot
                   |h self t f a k h' id Hb IH Hadd];
    intros i c nd cn Hi Hc Hcn.
  - discriminate.
  - pose proof (built_well_formed _ Hb) as Hwf.
    apply CliHelper_effect in Hroot as (_ & -> & _ & _).
    destruct (decide (i < length h)%nat) as [Hlt|Hge].
    + rewrite lookup_app_l in Hi by exact Hlt.
      assert (Hclt : (c < length h)%nat).
      { specialize (Hwf _ _ Hi). rewrite Forall_forall in Hwf.
        apply list_elem_of_In, Hwf in Hc. lia. }
      rewrite lookup_app_l in Hcn by exact Hclt.
      exact (IH _ _ _ _ Hi Hc Hcn).
    + rewrite lookup_app_r in Hi by lia.
      destruct (i - length h)%nat; [|destruct n; discriminate].
      injection Hi as <-. destruct Hc.
  - pose proof (built_well_formed _ Hb) as Hwf.
    destruct (add_option_effect _ _ _ _ _ _ _ _ Hadd)
      as (nd0 & nd1 & Hself & -> & Hlen & Hnew & Hself1 & Hch & _ & _
          & Hcfg & Hroot & Hother).
    assert (Hold : forall (j : node_id) ndj, h !! j = Some ndj ->
      forall x, In x (children ndj) -> (j < x < length h)%nat).
    { intros j ndj Hj x Hx. specialize (Hwf _ _ Hj).
      rewrite Forall_forall in Hwf. now apply list_elem_of_In, Hwf in Hx. }
    assert (Hchild : forall (x : node_id) cx,
      (x < length h)%nat -> h' !! x = Some cx ->
      exists cx0, h !! x = Some cx0
                  /\ menu_config cx = menu_config cx0
                  /\ _is_root cx = _is_root cx0).
    { intros x cx Hx Hcx.
      destruct (decide (x = self)) as [Heq|Hne]; [subst x|].
      - rewrite Hself1 in Hcx. injection Hcx as <-. eauto.
      - rewrite Hother in Hcx by assumption. eauto. }
    destruct (decide (i = self)) as [Heq|Hne]; [subst i|].
    + rewrite Hself1 in Hi. injection Hi as <-. rewrite Hcfg.
      rewrite Hch in Hc. apply in_app_or in Hc as [Hc|[<-|[]]].
      * destruct (Hold _ _ Hself _ Hc) as [_ Hclt].
        destruct (Hchild _ _ Hclt Hcn) as (cx0 & Hcx0 & -> & ->).
        exact (IH _ _ _ _ Hself Hc Hcx0).
      * rewrite Hnew in Hcn. injection Hcn as <-. now split.
    + destruct (decide (i = length h)) as [Heq|Hne']; [subst i|].
      * rewrite Hnew in Hi. injection Hi as <-. destruct Hc.
      * assert (Hilt : (i < length h)%nat).
        { apply lookup_lt_Some in Hi. lia. }
        rewrite Hother in Hi by assumption.
        destruct (Hold _ _ Hi _ Hc) as [_ Hclt].
        destruct (Hchild _ _ Hclt Hcn) as (cx0 & Hcx0 & -> & ->).
        exact (IH _ _ _ _ Hi Hc Hcx0).
Qed.

(** X8. In every heap the host can build, an option carries the very
    configuration of the node that lists it (the configuration given to
    the root goes down to every option below it), and no option is a
    root. *)
Theorem options_share_configuration h (i c : node_id) nd cn :
  built h ->
  h !! i = Some nd ->
  In c (children nd) ->
  h !! c = Some cn ->
  menu_config cn = menu_config nd /\ _is_root cn = false.
Proof. intros Hb. now apply built_children. Qed.

Lemma options_share_configuration_witness :
  menu_config (menu_node "Here" DefaultFunc [] DEFAULT_MENU_CONFIG [] false)
  = menu_config (menu_node "New Folder [d]" (EnterNextLevel 1) ["Temp"]
                   DEFAULT_MENU_CONFIG [2%nat] false)
  /\ _is_root (menu_node "Here" DefaultFunc [] DEFAULT_MENU_CONFIG [] false)
     = false.
Proof.
  apply (options_share_configuration folder_heap 1%nat 2%nat
           (menu_node "New Folder [d]" (EnterNextLevel 1) ["Temp"]
              DEFAULT_MENU_CONFIG [2%nat] false)
           (menu_node "Here" DefaultFunc [] DEFAULT_MENU_CONFIG [] false)
           built_folder_heap).
  - reflexivity.
  - left. reflexivity.
  - reflexivity.
Defined.

(** X9. [start_loop] called on an option, that is on any node some node
    lists among its children, prints the misuse message and returns: it
    draws nothing and reads nothing, whatever options the node has. *)
Theorem start_loop_on_option fuel h (i c : node_id) nd inp out :
  built h ->
  h !! i = Some nd ->
  In c (children nd) ->
  start_loop fuel h c (World inp out)
  = Done tt
      (World inp
         (out +:+ "Current option is not the root option. Exit." +:+ nl)).
Proof.
  intros Hb Hi Hc.
  pose proof (built_well_formed _ Hb _ _ Hi) as Hwf.
  rewrite Forall_forall in Hwf.
  pose proof Hc as Hc'. apply list_elem_of_In, Hwf in Hc'.
  destruct (lookup_lt_is_Some_2 h c) as [cn Hcn]; [lia|].
  destruct (built_children _ Hb _ _ _ _ Hi Hc Hcn) as [_ Hroot].
  unfold start_loop.
  erewrite bind_Done by (eapply get_node_found; eassumption).
  rewrite Hroot. reflexivity.
Qed.

Lemma start_loop_on_option_witness :
  start_loop 5 folder_heap 1 (World ["1"] "")
  = Done tt
      (World ["1"]
         ("" +:+ "Current option is not the root option. Exit." +:+ nl)).
Proof.
  apply (start_loop_on_option 5 folder_heap 0%nat 1%nat
           (menu_node "Main Menu [d]" (EnterNextLevel 0) []
              DEFAULT_MENU_CONFIG [1%nat] true)
           ["1"] "" built_folder_heap).
  - reflexivity.
  - left. reflexivity.
Defined.




(** ** Decimal numerals *)

Lemma of_uint_acc_bounds d : forall acc,
  Z.pos acc * 10 ^ Z.of_nat (Decimal.nb_digits d)
  <= Z.pos (Pos.of_uint_acc d acc)
  < (Z.pos acc + 1) * 10 ^ Z.of_nat (Decimal.nb_digits d).
Proof.
  induction d as [|d IH|d IH|d IH|d IH|d IH|d IH|d IH|d IH|d IH|d IH];
    intros acc; cbn [Decimal.nb_digits Pos.of_uint_acc];
    [rewrite Z.pow_0_r; lia|..];
    rewrite Nat2Z.inj_succ, Z.pow_succ_r by lia;
    match goal with
    | |- context [Pos.of_uint_acc d ?a] => specialize (IH a)
    end;
    assert (0 < 10 ^ Z.of_nat (Decimal.nb_digits d))
      by (apply Z.pow_pos_nonneg; lia);
    nia.
Qed.

Lemma to_uint_normal p : Decimal.unorm (Pos.to_uint p) = Pos.to_uint p.
Proof.
  rewrite <- (DecimalPos.Unsigned.to_of (Pos.to_uint p)), DecimalPos.Unsigned.of_to. reflexivity.
Qed.

Lemma to_uint_bounds p :
  10 ^ (Z.of_nat (Decimal.nb_digits (Pos.to_uint p)) - 1)
  <= Z.pos p
  < 10 ^ Z.of_nat (Decimal.nb_digits (Pos.to_uint p)).
Proof.
  pose proof (DecimalPos.Unsigned.of_to p) as Hof.
  pose proof (to_uint_normal p) as Hnorm.
  pose proof (DecimalPos.Unsigned.to_uint_nonzero p) as Hnz.
  destruct (Pos.to_uint p) as [|d|d|d|d|d|d|d|d|d|d] eqn:E;
    cbn [Pos.of_uint] in Hof; try discriminate.
  { exfalso. rewrite DecimalFacts.unorm_D0 in Hnorm. unfold Decimal.unorm in Hnorm.
    destruct (Decimal.nzhead d) eqn:Hd; try discriminate.
    - injection Hnorm as <-. now apply Hnz.
    - now apply DecimalFacts.nzhead_nonzero in Hd. }
  all: injection Hof as <-; cbn [Decimal.nb_digits];
    rewrite Nat2Z.inj_succ;
    match goal with
    | |- context [Pos.of_uint_acc ?u ?a] =>
        pose proof (of_uint_acc_bounds u a);
        replace (Z.succ (Z.of_nat (Decimal.nb_digits u)) - 1)
          with (Z.of_nat (Decimal.nb_digits u)) by lia;
        rewrite Z.pow_succ_r by lia;
        assert (0 < 10 ^ Z.of_nat (Decimal.nb_digits u))
          by (apply Z.pow_pos_nonneg; lia)
    end;
    nia.
Qed.

Lemma length_string_of_uint d :
  String.length (NilEmpty.string_of_uint d) = Decimal.nb_digits d.
Proof. induction d; simpl; congruence. Qed.

Lemma length_str_pos p :
  String.length (Py.str (Z.pos p)) = Decimal.nb_digits (Pos.to_uint p).
Proof.
  unfold Py.str. cbn [Z.to_int NilZero.string_of_int].
  unfold NilZero.string_of_uint.
  pose proof (DecimalPos.Unsigned.to_uint_nonnil p).
  destruct (Pos.to_uint p) eqn:E; try congruence;
    rewrite <- E at 1; rewrite length_string_of_uint, E; reflexivity.
Qed.

(** The decimal numeral of a larger count is no shorter. *)
Lemma length_str_mono a b :
  0 <= a <= b -> (String.length (Py.str a) <= String.length (Py.str b))%nat.
Proof.
  intros [Ha Hab].
  destruct b as [|q|q]; [|  |lia].
  - assert (a = 0) as -> by lia. lia.
  - rewrite length_str_pos. pose proof (to_uint_bounds q) as Hq.
    destruct a as [|p|p]; [| |lia].
    + change (String.length (Py.str 0)) with 1%nat.
      destruct (Decimal.nb_digits (Pos.to_uint q)) eqn:E; [|lia].
      simpl in Hq. lia.
    + rewrite length_str_pos. pose proof (to_uint_bounds p) as Hp.
      destruct (le_lt_dec (Decimal.nb_digits (Pos.to_uint p))
                  (Decimal.nb_digits (Pos.to_uint q))) as [Hle|Hlt];
        [exact Hle|exfalso].
      assert (10 ^ Z.of_nat (Decimal.nb_digits (Pos.to_uint q))
              <= 10 ^ (Z.of_nat (Decimal.nb_digits (Pos.to_uint p)) - 1))
        by (apply Z.pow_le_mono_r; lia).
      lia.
Qed.

(** ** [_get_max_length_of_option_titles] and [_draw_menu] *)

Lemma list_max_attained (l : list nat) : l <> [] -> In (list_max l) l.
Proof.
  induction l as [|x [|y l] IH]; intros Hne; [congruence| |].
  - left. simpl. lia.
  - change (list_max (x :: y :: l)) with (Nat.max x (list_max (y :: l))).
    destruct (Nat.max_spec x (list_max (y :: l))) as [[_ ->]|[_ ->]].
    + right. apply IH. discriminate.
    + now left.
Qed.

(** X11. [_get_max_length_of_option_titles] raises [ValueError] on a node
    without children, printing nothing; otherwise it returns a length that
    no title of a child exceeds and that one of them has. *)
Theorem max_length_of_option_titles h self nd titles inp out :
  h !! self = Some nd ->
  child_titles h nd titles ->
  (titles = [] ->
   _get_max_length_of_option_titles h self (World inp out)
   = Raised ValueError (World inp out))
  /\ (titles <> [] ->
      exists m,
        _get_max_length_of_option_titles h self (World inp out)
        = Done m (World inp out)
        /\ (forall t, In t titles -> Py.len t <= m)
        /\ (exists t, In t titles /\ Py.len t = m)).
Proof.
  intros Hself Htitles. split.
  - intros ->. unfold _get_max_length_of_option_titles.
    erewrite bind_Done by (eapply get_node_found; eassumption).
    erewrite bind_Done by (eapply (title_lengths h); exact Htitles).
    reflexivity.
  - intros Hne. exists (Z.of_nat (Spec.maxTitleWidth titles)).
    split; [now apply (max_length_of_titles h self nd titles)|].
    unfold Spec.maxTitleWidth, Py.len. split.
    + intros t Ht. apply inj_le.
      assert (Hall : Forall (fun k => (k <= list_max (map String.length titles))%nat)
                       (map String.length titles))
        by (now apply list_max_le).
      rewrite Forall_forall in Hall. apply Hall.
      apply list_elem_of_In, in_map, Ht.
    + assert (Hin : In (list_max (map String.length titles))
                      (map String.length titles)).
      { apply list_max_attained. now destruct titles. }
      apply in_map_iff in Hin as (t & Ht & Hin).
      exists t. split; [exact Hin | now rewrite Ht].
Qed.

Lemma max_length_of_option_titles_witness :
  exists m,
    _get_max_length_of_option_titles (menu_heap DEFAULT_MENU_CONFIG) 0
      (World [] "")
    = Done m (World [] "")
    /\ (forall t,
          In t ["New [d]"; "Open File"; "Save"; "[Exit]"] -> Py.len t <= m)
    /\ (exists t,
          In t ["New [d]"; "Open File"; "Save"; "[Exit]"] /\ Py.len t = m).
Proof.
  refine (proj2 (max_length_of_option_titles
                   (menu_heap DEFAULT_MENU_CONFIG) 0%nat
                   (menu_node "Main Menu [d]" (EnterNextLevel 0) []
                      DEFAULT_MENU_CONFIG [1; 6; 7; 8]%nat true)
                   ["New [d]"; "Open File"; "Save"; "[Exit]"] [] ""
                   _ _) _).
  - reflexivity.
  - repeat constructor; eexists; split; reflexivity.
  - discriminate.
Defined.

(** X12. A key left out of the configuration: [_draw_menu] raises
    [KeyError] for the first of its seven keys that is missing, in the
    order it reads them, and with all seven present raises [ValueError] on
    a node without children; the loop of [_enter_next_level] raises
    [KeyError] for [draw_menu_again] before anything else. In each case
    nothing has been printed or read. *)
Theorem missing_key_raises h self nd w :
  h !! self = Some nd ->
  (forall key,
      first_missing_key (menu_config nd) = Some key ->
      _draw_menu h self w = Raised (KeyError key) w)
  /\ (first_missing_key (menu_config nd) = None ->
      children nd = [] ->
      _draw_menu h self w = Raised ValueError w)
  /\ (draw_menu_again (menu_config nd) = None ->
      forall fuel state,
        keeps_looping state = true ->
        enter_loop (S fuel) h self state w
        = Raised (KeyError "draw_menu_again") w).
Proof.
  intros Hself. split; [|split].
  - intros key Hkey. unfold _draw_menu.
    erewrite bind_Done by (eapply get_node_found; eassumption).
    unfold first_missing_key in Hkey. unfold cfg_get, of_option.
    destruct (left_padding (menu_config nd));
      [|injection Hkey as <-; reflexivity].
    destruct (right_padding (menu_config nd));
      [|injection Hkey as <-; reflexivity].
    destruct (top_padding (menu_config nd));
      [|injection Hkey as <-; reflexivity].
    destruct (bottom_padding (menu_config nd));
      [|injection Hkey as <-; reflexivity].
    destruct (edge_char (menu_config nd));
      [|injection Hkey as <-; reflexivity].
    destruct (wall_char (menu_config nd));
      [|injection Hkey as <-; reflexivity].
    destruct (serial_marker (menu_config nd));
      [discriminate|injection Hkey as <-; reflexivity].
  - intros Hkey Hnil. unfold _draw_menu.
    erewrite bind_Done by (eapply get_node_found; eassumption).
    unfold first_missing_key in Hkey. unfold cfg_get, of_option.
    destruct (left_padding (menu_config nd)); [|discriminate].
    destruct (right_padding (menu_config nd)); [|discriminate].
    destruct (top_padding (menu_config nd)); [|discriminate].
    destruct (bottom_padding (menu_config nd)); [|discriminate].
    destruct (edge_char (menu_config nd)); [|discriminate].
    destruct (wall_char (menu_config nd)); [|discriminate].
    destruct (serial_marker (menu_config nd)); [|discriminate].
    do 7 (erewrite bind_Done by reflexivity).
    unfold _get_max_length_of_option_titles, bind at 1.
    erewrite bind_Done by (eapply get_node_found; eassumption).
    rewrite Hnil. reflexivity.
  - intros Hagain fuel state Hloop.
    rewrite enter_loop_round, Hloop. unfold choose, redraw.
    unfold bind at 1. unfold bind at 1.
    erewrite bind_Done by (eapply get_node_found; eassumption).
    rewrite Hagain. reflexivity.
Qed.

Lemma missing_key_raises_witness :
  _draw_menu (menu_heap test_config) 0 (World ["1"] "")
  = Raised (KeyError "left_padding") (World ["1"] "")
  /\ enter_loop 1 (menu_heap test_config) 0 (VInt _ENTER_CODE)
       (World ["1"] "")
     = Raised (KeyError "draw_menu_again") (World ["1"] "").
Proof.
  destruct (missing_key_raises (menu_heap test_config) 0%nat
              (menu_node "Main Menu [d]" (EnterNextLevel 0) [] test_config
                 [1; 6; 7; 8]%nat true)
              (World ["1"] "") eq_refl) as (Hkey & _ & Hloop).
  split.
  - apply Hkey. reflexivity.
  - apply Hloop; reflexivity.
Defined.

Lemma title_lengths_resolve h cs :
  Forall (fun c : node_id => is_Some (h !! c)) cs ->
  exists lens,
    length lens = length cs
    /\ forall w,
         comprehension cs
           (fun c => let* cn := get_node h c in ret (Py.len (title cn))) w
         = Done lens w.
Proof.
  induction 1 as [|c cs [cn Hc] _ (lens & Hlen & IH)].
  - exists []. split; reflexivity.
  - exists (Py.len (title cn) :: lens). split; [simpl; congruence|].
    intros w. rewrite comprehension_cons.
    erewrite bind_Done
      by (erewrite bind_Done by (eapply get_node_found; eassumption);
          reflexivity).
    erewrite bind_Done by apply IH. reflexivity.
Qed.

Lemma entries_resolve h (line : Z -> OptionNode -> string) cs :
  Forall (fun c : node_id => is_Some (h !! c)) cs ->
  forall i,
  exists s,
    forall inp out,
      for_each (Py.enumerate_from i cs)
        (fun '(i, opt) =>
           let* optn := get_node h opt in print (line i optn))
        (World inp out)
      = Done tt (World inp (out +:+ s)).
Proof.
  induction 1 as [|c cs [cn Hc] _ IH]; intros i.
  - exists "". intros inp out. simpl. unfold ret. now rewrite append_nil_r.
  - destruct (IH (i + 1)) as [s Hs].
    exists (line i cn +:+ nl +:+ s). intros inp out.
    change (Py.enumerate_from i (c :: cs))
      with ((i, c) :: Py.enumerate_from (i + 1) cs).
    rewrite for_each_cons.
    erewrite bind_Done
      by (erewrite bind_Done by (eapply get_node_found; eassumption);
          reflexivity).
    cbn [stdin stdout]. rewrite Hs. now rewrite !append_assoc.
Qed.

Lemma line_feed_not_empty a b : a +:+ nl +:+ b <> "".
Proof.
  intros H. apply (f_equal String.length) in H.
  rewrite !length_append in H. simpl in H. lia.
Qed.

Lemma built_children_resolve h (i : node_id) nd :
  built h -> h !! i = Some nd ->
  Forall (fun c : node_id => is_Some (h !! c)) (children nd).
Proof.
  intros Hb Hi. eapply Forall_impl; [exact (built_well_formed _ Hb _ _ Hi)|].
  intros c Hc. apply lookup_lt_is_Some_2. simpl in Hc. lia.
Qed.

(** The menu of a node drawn on any console. *)
Lemma draw_menu_total h self nd :
  h !! self = Some nd ->
  first_missing_key (menu_config nd) = None ->
  children nd <> [] ->
  Forall (fun c : node_id => is_Some (h !! c)) (children nd) ->
  exists text,
    text <> ""
    /\ forall inp out,
         _draw_menu h self (World inp out)
         = Done tt (World inp (out +:+ text)).
Proof.
  intros Hself Hkey Hne Hres.
  destruct (title_lengths_resolve h _ Hres) as (lens & Hlen & Hlens).
  assert (Hmax : exists m, Py.max lens = Some m).
  { destruct lens as [|x lens]; [|simpl; eauto].
    destruct (children nd); [congruence | discriminate]. }
  destruct Hmax as [m Hm].
  unfold first_missing_key in Hkey.
  destruct (left_padding (menu_config nd)) as [left|] eqn:E1; [|discriminate].
  destruct (right_padding (menu_config nd)) as [right|] eqn:E2;
    [|discriminate].
  destruct (top_padding (menu_config nd)) as [top|] eqn:E3; [|discriminate].
  destruct (bottom_padding (menu_config nd)) as [bottom|] eqn:E4;
    [|discriminate].
  destruct (edge_char (menu_config nd)) as [ec|] eqn:E5; [|discriminate].
  destruct (wall_char (menu_config nd)) as [wc|] eqn:E6; [|discriminate].
  destruct (serial_marker (menu_config nd)) as [sm|] eqn:E7; [|discriminate].
  destruct (entries_resolve h
              (fun i optn =>
                 (ec +:+ Py.str_mul wc left)
                 +:+ Py.rjust (Py.str (i + 1))
                       (Py.len (Py.str (Py.len_list (children nd))))
                 +:+ sm +:+ Py.ljust (title optn) m
                 +:+ Py.str_mul wc right +:+ ec)
              _ Hres 0) as [s Hs].
  eexists. split; cycle 1.
  - intros inp out. unfold _draw_menu.
    erewrite bind_Done by (eapply get_node_found; eassumption).
    rewrite E1, E2, E3, E4, E5, E6, E7. unfold cfg_get, of_option.
    do 7 (erewrite bind_Done by reflexivity).
    erewrite bind_Done.
    2: { unfold _get_max_length_of_option_titles.
         erewrite bind_Done by (eapply get_node_found; eassumption).
         erewrite bind_Done by apply Hlens.
         rewrite Hm. reflexivity. }
    cbv zeta.
    erewrite bind_Done by reflexivity.
    cbn [stdin stdout]. unfold Py.enumerate.
    erewrite bind_Done by apply Hs.
    unfold print, print_. cbn [stdin stdout].
    rewrite !append_assoc. reflexivity.
  - apply line_feed_not_empty.
Qed.

Lemma length_right_aligned s width :
  (String.length s <= width)%nat ->
  String.length (Spec.right_aligned s width) = width.
Proof.
  intros H. unfold Spec.right_aligned.
  rewrite length_append, length_fill. lia.
Qed.

Lemma length_left_aligned s width :
  (String.length s <= width)%nat ->
  String.length (Spec.left_aligned s width) = width.
Proof.
  intros H. unfold Spec.left_aligned.
  rewrite length_append, length_fill. lia.
Qed.

Section Rectangle.

Variables (l r t b : nat) (e f : ascii) (sm : string).
Variable titles : list string.

Lemma length_entry serial title_ :
  (serial <= length titles)%nat ->
  In title_ titles ->
  String.length (Spec.entry l r e f sm titles serial title_) = (Spec.interiorWidth l r sm titles + 2)%nat.
Proof.
  intros Hserial Hin. unfold Spec.entry. simpl String.length.
  rewrite !length_append, !length_fill.
  rewrite length_right_aligned, length_left_aligned.
  - simpl. unfold Spec.interiorWidth, Spec.contentWidth. lia.
  - unfold Spec.maxTitleWidth.
    assert (Hall : Forall (fun k => (k <= list_max (map String.length titles))%nat)
                     (map String.length titles))
      by (now apply list_max_le).
    rewrite Forall_forall in Hall. apply Hall.
    apply list_elem_of_In, in_map, Hin.
  - unfold Spec.maxSerialWidth, Spec.numeral. apply length_str_mono. lia.
Qed.

Lemma length_entries ts : forall serial,
  (serial + length ts <= S (length titles))%nat ->
  (forall x, In x ts -> In x titles) ->
  Forall (fun line => String.length line = (Spec.interiorWidth l r sm titles + 2)%nat)
    (Spec.entries l r e f sm titles serial ts).
Proof.
  induction ts as [|x ts IH]; intros serial Hserial Hsub; simpl.
  - constructor.
  - constructor.
    + apply length_entry; [simpl in Hserial; lia | apply Hsub; now left].
    + apply IH; [simpl in Hserial; lia | intros y Hy; apply Hsub; now right].
Qed.

Lemma length_render :
  Forall (fun line => String.length line = (Spec.interiorWidth l r sm titles + 2)%nat)
    (Spec.render l r t b e f sm titles).
Proof.
  assert (Hborder : String.length (Spec.border l r e sm titles) = (Spec.interiorWidth l r sm titles + 2)%nat).
  { unfold Spec.border. apply length_fill. }
  assert (Hblank : forall n,
    Forall (fun line => String.length line = (Spec.interiorWidth l r sm titles + 2)%nat)
      (repeat (Spec.blank l r e f sm titles) n)).
  { intros n. apply Forall_forall. intros x Hx.
    apply list_elem_of_In, repeat_spec in Hx. subst x.
    unfold Spec.blank. simpl String.length.
    rewrite length_append, length_fill. simpl. lia. }
  unfold Spec.render. repeat apply Forall_app_2; auto.
  apply length_entries; [simpl; lia | auto].
Qed.

End Rectangle.

(** The lines of a text printed line by line. *)
Lemma lines_from_line x : forall cur rest,
  no_line_feed x = true ->
  lines_from cur (x +:+ nl +:+ rest) = (cur +:+ x) :: lines_from "" rest.
Proof.
  induction x as [|c x IH]; intros cur rest Hx.
  - simpl. now rewrite append_nil_r.
  - simpl in Hx. apply andb_prop in Hx as [Hc Hx].
    rewrite append_cons. cbn [lines_from].
    apply negb_true_iff in Hc. rewrite Hc.
    rewrite IH by exact Hx. now rewrite append_assoc.
Qed.

Lemma printed_lines_unlines ls :
  Forall (fun line => no_line_feed line = true) ls ->
  printed_lines (Spec.unlines ls) = ls.
Proof.
  unfold printed_lines. induction 1 as [|x ls Hx Hls IH]; [reflexivity|].
  cbn [Spec.unlines]. rewrite lines_from_line by exact Hx.
  now rewrite IH.
Qed.

Lemma no_line_feed_append a b :
  no_line_feed (a +:+ b) = no_line_feed a && no_line_feed b.
Proof.
  induction a as [|c a IH]; [reflexivity|].
  rewrite append_cons. simpl. now rewrite IH, andb_assoc.
Qed.

Lemma no_line_feed_fill n c :
  is_line_feed c = false -> no_line_feed (Spec.fill n c) = true.
Proof. intros Hc. induction n as [|n IH]; simpl; [|rewrite Hc]; auto. Qed.

Lemma no_line_feed_uint d : no_line_feed (NilEmpty.string_of_uint d) = true.
Proof. induction d; simpl; auto. Qed.

Lemma no_line_feed_numeral n : no_line_feed (Spec.numeral n) = true.
Proof.
  unfold Spec.numeral, Py.str.
  destruct (Z.of_nat n) as [|p|p]; cbn [Z.to_int NilZero.string_of_int].
  - reflexivity.
  - unfold NilZero.string_of_uint.
    destruct (Pos.to_uint p) eqn:E; try reflexivity;
      rewrite <- E; apply no_line_feed_uint.
  - simpl. unfold NilZero.string_of_uint.
    destruct (Pos.to_uint p) eqn:E; try reflexivity;
      rewrite <- E; apply no_line_feed_uint.
Qed.

Section RectangleLines.

Variables (l r t b : nat) (e f : ascii) (sm : string).
Variable titles : list string.

Hypothesis He : is_line_feed e = false.
Hypothesis Hf : is_line_feed f = false.
Hypothesis Hsm : no_line_feed sm = true.
Hypothesis Htitles : Forall (fun x => no_line_feed x = true) titles.

Lemma no_line_feed_entries ts : forall serial,
  Forall (fun x => no_line_feed x = true) ts ->
  Forall (fun line => no_line_feed line = true)
    (Spec.entries l r e f sm titles serial ts).
Proof.
  induction ts as [|x ts IH]; intros serial Hts; simpl; constructor.
  - apply Forall_cons in Hts as [Hx _].
    unfold Spec.entry, Spec.right_aligned, Spec.left_aligned.
    cbn [no_line_feed]. rewrite He. cbn [negb andb].
    rewrite !no_line_feed_append. cbn [no_line_feed].
    rewrite He, Hsm, Hx, no_line_feed_numeral.
    rewrite !no_line_feed_fill by (exact Hf || reflexivity).
    reflexivity.
  - apply IH. now apply Forall_cons in Hts as [_ Hts].
Qed.

Lemma no_line_feed_render :
  Forall (fun line => no_line_feed line = true)
    (Spec.render l r t b e f sm titles).
Proof.
  assert (Hblank : forall n,
    Forall (fun line => no_line_feed line = true)
      (repeat (Spec.blank l r e f sm titles) n)).
  { intros n. apply Forall_forall. intros x Hx.
    apply list_elem_of_In, repeat_spec in Hx. subst x.
    unfold Spec.blank. cbn [no_line_feed]. rewrite He. cbn [negb andb].
    rewrite no_line_feed_append. cbn [no_line_feed].
    rewrite He, no_line_feed_fill by exact Hf. reflexivity. }
  unfold Spec.render. repeat apply Forall_app_2; auto.
  - repeat constructor. now apply no_line_feed_fill.
  - now apply no_line_feed_entries.
  - repeat constructor. now apply no_line_feed_fill.
Qed.

End RectangleLines.

(** X14. The menu is a rectangle: under the conditions of the rendering
    (every key set, paddings not negative, one character each for edge and
    fill, at least one title), and with no line feed in the titles, the
    marker, the edge or the fill, the lines of the text that [_draw_menu]
    prints, border, blank or entry, all have the same length, the interior
    width plus the two edge characters, and there are as many of them as
    titles, plus the two paddings and the two borders. No serial number
    and no title sticks out. *)
Theorem menu_is_rectangular h self nd l r t b e f sm again titles inp out :
  h !! self = Some nd ->
  menu_config nd
  = full_config (Z.of_nat l) (Z.of_nat r) (Z.of_nat t) (Z.of_nat b)
      (String e "") (String f "") sm again ->
  child_titles h nd titles ->
  titles <> [] ->
  is_line_feed e = false ->
  is_line_feed f = false ->
  no_line_feed sm = true ->
  Forall (fun x => no_line_feed x = true) titles ->
  exists text,
    _draw_menu h self (World inp out) = Done tt (World inp (out +:+ text))
    /\ Forall (fun line =>
                 String.length line
                 = (Spec.interiorWidth l r sm titles + 2)%nat)
         (printed_lines text)
    /\ length (printed_lines text) = (t + length titles + b + 2)%nat.
Proof.
  intros Hself Hcfg Htitles Hne He Hf Hsm Hfeed.
  exists (menu_text l r t b e f sm titles). split; [|split].
  - now apply (draw_menu_text h self nd l r t b e f sm again).
  - unfold menu_text. rewrite printed_lines_unlines
      by now apply no_line_feed_render.
    apply length_render.
  - unfold menu_text. rewrite printed_lines_unlines
      by now apply no_line_feed_render.
    unfold Spec.render. rewrite !length_app, !repeat_length.
    assert (Hlen : forall ts serial,
      length (Spec.entries l r e f sm titles serial ts) = length ts).
    { induction ts as [|x ts IH]; intros serial; simpl; [|rewrite IH];
        reflexivity. }
    rewrite Hlen. simpl. lia.
Qed.

Lemma menu_is_rectangular_witness :
  exists text,
    _draw_menu (menu_heap DEFAULT_MENU_CONFIG) 0 (World [] "")
    = Done tt (World [] ("" +:+ text))
    /\ Forall (fun line =>
                 String.length line
                 = (Spec.interiorWidth 2 10 ". "
                      ["New [d]"; "Open File"; "Save"; "[Exit]"] + 2)%nat)
         (printed_lines text)
    /\ length (printed_lines text) = (1 + 4 + 1 + 2)%nat.
Proof.
  apply (menu_is_rectangular (menu_heap DEFAULT_MENU_CONFIG) 0%nat
           (menu_node "Main Menu [d]" (EnterNextLevel 0) []
              DEFAULT_MENU_CONFIG [1; 6; 7; 8]%nat true)
           2 10 1 1 "#" " " ". " false
           ["New [d]"; "Open File"; "Save"; "[Exit]"] [] "").
  - reflexivity.
  - reflexivity.
  - repeat constructor; eexists; split; reflexivity.
  - discriminate.
  - reflexivity.
  - reflexivity.
  - reflexivity.
  - repeat constructor.
Defined.

(** ** Rounds of [_enter_next_level] *)

(** A round of the loop in which an option is chosen. *)
Lemma chosen_round fuel h self state w (c : node_id) optn w1 :
  keeps_looping state = true ->
  choose (S fuel) h self state w = Done (Some c) w1 ->
  h !! c = Some optn ->
  enter_loop (S (S fuel)) h self state w
  = (let* state' := call_exec_func (_enter_next_level (S fuel) h) optn in
     enter_loop (S fuel) h self state') w1.
Proof.
  intros Hloop Hchoose Hc.
  rewrite enter_loop_round, Hloop.
  erewrite bind_Done by exact Hchoose. cbv beta iota.
  erewrite bind_Done by (eapply get_node_found; exact Hc).
  reflexivity.
Qed.

(** X15. Choosing an option that was given no function (its [exec_func]
    is [_default_func]) prints [No function], and the loop of the level
    goes on from state [None]: the menu is not drawn again unless
    [draw_menu_again] is set, and at the end of the input the next prompt
    is where [input] raises [EOFError]. If the option was given
    arguments, the call raises [TypeError] instead, nothing printed. *)
Theorem default_function_round h (self : node_id) nd l r t b e f sm again
    titles fuel state line k (c : node_id) optn rest out :
  h !! self = Some nd ->
  menu_config nd
  = full_config (Z.of_nat l) (Z.of_nat r) (Z.of_nat t) (Z.of_nat b)
      (String e "") (String f "") sm again ->
  child_titles h nd titles ->
  titles <> [] ->
  keeps_looping state = true ->
  option_check (Py.len_list (children nd)) line = Ok true ->
  Py.int line = Some k ->
  children nd !! Z.to_nat (k - 1) = Some c ->
  h !! c = Some optn ->
  exec_func optn = DefaultFunc ->
  let menu := menu_text l r t b e f sm titles in
  let shown :=
    out +:+ (if again || is_code state _ENTER_CODE then menu else "")
    +:+ option_prompt +:+ ": " in
  (args optn = [] /\ kwargs optn = [] ->
   enter_loop (S (S (S fuel))) h self state (World (line :: rest) out)
   = enter_loop (S (S fuel)) h self VNone
       (World rest (shown +:+ "No function" +:+ nl))
   /\ (rest = [] ->
       enter_loop (S (S (S fuel))) h self state (World (line :: rest) out)
       = Raised EOFError
           (World []
              (shown +:+ "No function" +:+ nl
               +:+ (if again then menu else "")
               +:+ option_prompt +:+ ": "))))
  /\ (args optn <> [] \/ kwargs optn <> [] ->
      enter_loop (S (S (S fuel))) h self state (World (line :: rest) out)
      = Raised TypeError (World rest shown)).
Proof.
  intros Hself Hcfg Htitles Hne Hloop Hcheck Hk Hc Hoptn Hf menu shown.
  pose proof (failed_choices_chosen h self nd l r t b e f sm again titles
                Hself Hcfg Htitles Hne (S fuel) line k c optn rest []
                state out Hloop (Forall_nil_2 _) Hcheck Hk Hc Hoptn)
    as Hrun.
  simpl length in Hrun. simpl Py.str_rep in Hrun. simpl app in Hrun.
  change (S (S (0 + S fuel))) with (S (S (S fuel))) in Hrun.
  rewrite Hrun. clear Hrun. autorewrite with str. fold menu. fold shown.
  unfold call_exec_func. rewrite Hf. split.
  - intros [-> ->].
    assert (Hgo :
      (let* state' := print "No function" ;; ret VNone in
       enter_loop (S (S fuel)) h self state') (World rest shown)
      = enter_loop (S (S fuel)) h self VNone
          (World rest (shown +:+ "No function" +:+ nl))).
    { unfold bind, print, print_, ret. cbn [stdin stdout].
      now rewrite ?append_assoc. }
    rewrite Hgo. split; [reflexivity|].
    intros ->.
    rewrite (last_round h self nd l r t b e f sm again titles)
      by (assumption || reflexivity).
    cbn [is_code]. rewrite orb_false_r. fold menu.
    now rewrite !append_assoc.
  - intros Hargs. unfold bind, raise.
    destruct (args optn), (kwargs optn); try reflexivity.
    destruct Hargs; congruence.
Qed.

Lemma default_function_round_witness :
  enter_loop 3 (menu_heap DEFAULT_MENU_CONFIG) 0 (VInt _ENTER_CODE)
    (World ["3"] "")
  = Raised EOFError
      (World []
         ("" +:+ menu_text 2 10 1 1 "#" " " ". "
                   ["New [d]"; "Open File"; "Save"; "[Exit]"]
          +:+ option_prompt +:+ ": " +:+ "No function" +:+ nl
          +:+ "" +:+ option_prompt +:+ ": "))
  /\ enter_loop 3 report_heap 0 (VInt _ENTER_CODE) (World ["1"; "1"] "")
     = Raised TypeError
         (World ["1"]
            ("" +:+ menu_text 2 10 1 1 "#" " " ". " ["Report"]
             +:+ option_prompt +:+ ": ")).
Proof.
  split.
  - refine (proj2 (proj1 (default_function_round
             (menu_heap DEFAULT_MENU_CONFIG) 0%nat
             (menu_node "Main Menu [d]" (EnterNextLevel 0) []
                DEFAULT_MENU_CONFIG [1; 6; 7; 8]%nat true)
             2 10 1 1 "#" " " ". " false
             ["New [d]"; "Open File"; "Save"; "[Exit]"]
             0 (VInt _ENTER_CODE) "3" 3 7%nat
             (menu_node "Save" DefaultFunc [] DEFAULT_MENU_CONFIG [] false)
             [] "" _ _ _ _ _ _ _ _ _ _) _) _);
      try reflexivity; try discriminate.
    + repeat constructor; eexists; split; reflexivity.
    + split; reflexivity.
  - refine (proj2 (default_function_round
             report_heap 0%nat
             (menu_node "Main Menu [d]" (EnterNextLevel 0) []
                DEFAULT_MENU_CONFIG [1%nat] true)
             2 10 1 1 "#" " " ". " false ["Report"]
             0 (VInt _ENTER_CODE) "1" 1 1%nat
             (menu_node "Report" DefaultFunc ["x"] DEFAULT_MENU_CONFIG []
                false)
             ["1"] "" _ _ _ _ _ _ _ _ _ _) _);
      try reflexivity; try discriminate.
    + repeat constructor; eexists; split; reflexivity.
    + left. discriminate.
Defined.



(** ** Options added, then chosen *)

(** The number after those of the children a node had chooses the option
    just added. *)
Lemma added_option_is_last_aux fuel h self title_ exec_func_ args_ kwargs_
    h1 (id : node_id) nd line rest out :
  add_option h self title_ exec_func_ args_ kwargs_ = Some (h1, id) ->
  h !! self = Some nd ->
  Py.isdigit line = true ->
  Py.int line = Some (Py.len_list (children nd) + 1) ->
  _request_option (S fuel) h1 self (World (line :: rest) out)
  = Done (Some id) (World rest (out +:+ option_prompt +:+ ": ")).
Proof.
  intros Hadd Hself Hd Hint.
  destruct (add_option_effect _ _ _ _ _ _ _ _ Hadd)
    as (nd0 & nd1 & Hself0 & -> & _ & _ & Hself1 & Hch & _).
  rewrite Hself in Hself0. injection Hself0 as <-.
  assert (Hlen : Py.len_list (children nd1) = Py.len_list (children nd) + 1).
  { unfold Py.len_list. rewrite Hch, length_app. simpl. lia. }
  pose proof (option_choice fuel h1 self nd1 line rest out
                Hself1) as H1.
  rewrite Hlen in H1. unfold option_check in H1.
  rewrite Hd, Hint in H1. simpl in H1.
  replace (1 <=? Py.len_list (children nd) + 1) with true in H1
    by (symmetry; apply Z.leb_le; unfold Py.len_list; lia).
  rewrite Z.leb_refl in H1. simpl in H1.
  destruct H1 as (c & (k & Hk & Hc) & Hr).
  injection Hk as <-. rewrite Hr. repeat f_equal.
  rewrite Hch in Hc. unfold Py.len_list in Hc.
  replace (Z.to_nat (Z.of_nat (length (children nd)) + 1 - 1))
    with (length (children nd) + 0)%nat in Hc by lia.
  rewrite lookup_app_r in Hc by lia.
  replace (length (children nd) + 0 - length (children nd))%nat
    with 0%nat in Hc by lia.
  now injection Hc as <-.
Qed.

(** X17. An option just added is chosen by the number after those of the
    children the node had, and by no other line: every other line is read
    on the new heap as it was on the old one. *)
Theorem added_option_is_numbered_last fuel h self title_ exec_func_ args_
    kwargs_ h1 (id : node_id) nd line rest out :
  add_option h self title_ exec_func_ args_ kwargs_ = Some (h1, id) ->
  h !! self = Some nd ->
  (Py.isdigit line = true ->
   Py.int line = Some (Py.len_list (children nd) + 1) ->
   _request_option (S fuel) h1 self (World (line :: rest) out)
   = Done (Some id) (World rest (out +:+ option_prompt +:+ ": ")))
  /\ (Py.int line <> Some (Py.len_list (children nd) + 1) ->
      _request_option (S fuel) h1 self (World (line :: rest) out)
      = _request_option (S fuel) h self (World (line :: rest) out)).
Proof.
  intros Hadd Hself.
  destruct (add_option_effect _ _ _ _ _ _ _ _ Hadd)
    as (nd0 & nd1 & Hself0 & -> & _ & _ & Hself1 & Hch & _).
  rewrite Hself in Hself0. injection Hself0 as <-.
  assert (Hlen : Py.len_list (children nd1) = Py.len_list (children nd) + 1).
  { unfold Py.len_list. rewrite Hch, length_app. simpl. lia. }
  pose proof (option_choice fuel h1 self nd1 line rest out
                Hself1) as H1.
  pose proof (option_choice fuel h self nd line rest out
                Hself) as H0.
  rewrite Hlen in H1. unfold option_check in H0, H1.
  split.
  - intros Hd Hint.
    now apply (added_option_is_last_aux fuel h self title_ exec_func_ args_
                 kwargs_ h1 (length h) nd).
  - intros Hint.
    destruct (Py.isdigit line) eqn:Hd; simpl in H0, H1;
      [|now rewrite H0, H1].
    destruct (Py.int line) as [k|] eqn:Hk; [|now rewrite H0, H1].
    assert (Hsame : (1 <=? k) && (k <=? Py.len_list (children nd) + 1)
                    = (1 <=? k) && (k <=? Py.len_list (children nd))).
    { f_equal. destruct (Z.leb_spec k (Py.len_list (children nd)));
        [apply Z.leb_le; lia | apply Z.leb_gt].
      assert (k <> Py.len_list (children nd) + 1) by congruence. lia. }
    rewrite Hsame in H1.
    destruct ((1 <=? k) && (k <=? Py.len_list (children nd))) eqn:Hrange;
      [|now rewrite H0, H1].
    destruct H1 as (c1 & (k1 & Hk1 & Hc1) & Hr1).
    destruct H0 as (c0 & (k0 & Hk0 & Hc0) & Hr0).
    injection Hk1 as <-. injection Hk0 as <-.
    rewrite Hr1, Hr0. repeat f_equal.
    rewrite Hch in Hc1.
    rewrite lookup_app_l in Hc1 by (now apply lookup_lt_Some in Hc0).
    congruence.
Qed.

Lemma added_option_is_numbered_last_witness :
  _request_option 1 folder_heap 1 (World ["1"; "x"] "")
  = Done (Some 2%nat) (World ["x"] ("" +:+ option_prompt +:+ ": ")).
Proof.
  refine (proj1 (added_option_is_numbered_last 0
                   [menu_node "Main Menu [d]" (EnterNextLevel 0) []
                      DEFAULT_MENU_CONFIG [1%nat] true;
                    menu_node "New Folder" new_folder ["Temp"]
                      DEFAULT_MENU_CONFIG [] false]
                   1%nat "Here" None None None folder_heap 2%nat
                   (menu_node "New Folder" new_folder ["Temp"]
                      DEFAULT_MENU_CONFIG [] false)
                   "1" ["x"] "" _ _) _ _).
  - vm_compute. reflexivity.
  - reflexivity.
  - reflexivity.
  - reflexivity.
Defined.

(** What lines 218-219 do on a node that can be drawn. *)
Lemma redraw_total h self nd state :
  h !! self = Some nd ->
  first_missing_key (menu_config nd) = None ->
  is_Some (draw_menu_again (menu_config nd)) ->
  children nd <> [] ->
  Forall (fun c : node_id => is_Some (h !! c)) (children nd) ->
  exists text,
    forall inp out,
      redraw h self state (World inp out)
      = Done tt (World inp (out +:+ text)).
Proof.
  intros Hself Hkey [again Hagain] Hne Hres.
  destruct (draw_menu_total h self nd Hself Hkey Hne Hres)
    as (text & _ & Hdraw).
  exists (if again || is_code state _ENTER_CODE then text else "").
  intros inp out. unfold redraw.
  erewrite bind_Done by (eapply get_node_found; eassumption).
  rewrite Hagain. unfold cfg_get, of_option.
  erewrite bind_Done by reflexivity.
  destruct (again || is_code state _ENTER_CODE); [apply Hdraw|].
  unfold ret. now rewrite append_nil_r.
Qed.

(** A round in which the option just added is chosen. *)
Lemma added_option_round fuel h self nd exec_func_ title_ h1 (id : node_id)
    state line rest out :
  built h ->
  h !! self = Some nd ->
  first_missing_key (menu_config nd) = None ->
  is_Some (draw_menu_again (menu_config nd)) ->
  add_option h self title_ (Some exec_func_) None None = Some (h1, id) ->
  Py.isdigit line = true ->
  Py.int line = Some (Py.len_list (children nd) + 1) ->
  keeps_looping state = true ->
  exists out',
    enter_loop (S (S fuel)) h1 self state (World (line :: rest) out)
    = (let* state' :=
         call_exec_func (_enter_next_level (S fuel) h1)
           (new_node title_ (Some exec_func_) None None
              (Some (menu_config nd)) false) in
       enter_loop (S fuel) h1 self state') (World rest out').
Proof.
  intros Hb Hself Hkey Hagain Hadd Hd Hint Hloop.
  pose proof (built_option _ _ _ _ _ _ _ _ Hb Hadd) as Hb1.
  destruct (add_option_effect _ _ _ _ _ _ _ _ Hadd)
    as (nd0 & nd1 & Hself0 & Hid & _ & Hnew & Hself1 & Hch & _ & _ & Hcfg
        & _).
  rewrite Hself in Hself0. injection Hself0 as <-.
  assert (Hne : children nd1 <> []).
  { rewrite Hch. intros H. now apply app_eq_nil in H as [_ H]. }
  rewrite <- Hcfg in Hkey, Hagain.
  destruct (redraw_total h1 self nd1 state Hself1 Hkey Hagain Hne
              (built_children_resolve _ _ _ Hb1 Hself1)) as (text & Hredraw).
  exists (out +:+ text +:+ option_prompt +:+ ": ").
  subst id.
  apply (chosen_round _ _ _ _ _ (length h)); [exact Hloop | | exact Hnew].
  unfold choose. erewrite bind_Done by apply Hredraw.
  rewrite (added_option_is_last_aux fuel h self title_ (Some exec_func_)
             None None h1 (length h) nd line rest (out +:+ text)
             Hadd Hself Hd Hint).
  now rewrite !append_assoc.
Qed.

Lemma fmap_fst_Some {A B} (o : option (A * B)) a :
  fst <$> o = Some a -> exists b, o = Some (a, b).
Proof. destruct o as [[a' b]|]; [|discriminate]. intros [= <-]. eauto. Qed.

(** X18. After [add_return_option] on a node, the number of the new
    option, typed in the loop of that node, makes [_enter_next_level]
    return [_ENTER_CODE]: the level is left for the one above. After
    [add_exit_option] it makes it return [_QUIT_CODE], and [start_loop] on
    a root then prints its farewell and returns. Exactly one line is read
    in each case. *)
Theorem back_and_exit_options fuel h self nd h1 state line rest out :
  built h ->
  h !! self = Some nd ->
  first_missing_key (menu_config nd) = None ->
  is_Some (draw_menu_again (menu_config nd)) ->
  Py.isdigit line = true ->
  Py.int line = Some (Py.len_list (children nd) + 1) ->
  keeps_looping state = true ->
  (add_return_option h self = Some h1 ->
   exists out',
     enter_loop (S (S fuel)) h1 self state (World (line :: rest) out)
     = Done (VInt _ENTER_CODE) (World rest out'))
  /\ (add_exit_option h self = Some h1 ->
      (exists out',
          enter_loop (S (S fuel)) h1 self state (World (line :: rest) out)
          = Done (VInt _QUIT_CODE) (World rest out'))
      /\ (_is_root nd = true ->
          exists out',
            start_loop (S (S fuel)) h1 self (World (line :: rest) out)
            = Done tt
                (World rest (out' +:+ "Exit CliHelper. Bye." +:+ nl)))).
Proof.
  intros Hb Hself Hkey Hagain Hd Hint Hloop. split.
  - intros Hadd. apply fmap_fst_Some in Hadd as [id Hadd].
    destruct (added_option_round fuel h self nd _ _ h1 id state line rest
                out Hb Hself Hkey Hagain Hadd Hd Hint Hloop) as [out' Hr].
    exists out'. rewrite Hr. reflexivity.
  - intros Hadd. apply fmap_fst_Some in Hadd as [id Hadd].
    split.
    + destruct (added_option_round fuel h self nd _ _ h1 id state line rest
                  out Hb Hself Hkey Hagain Hadd Hd Hint Hloop) as [out' Hr].
      exists out'. rewrite Hr. reflexivity.
    + intros Hroot.
      destruct (added_option_round fuel h self nd _ _ h1 id
                  (VInt _ENTER_CODE) line rest out Hb Hself Hkey Hagain Hadd
                  Hd Hint eq_refl) as [out' Hr].
      exists out'.
      destruct (add_option_effect _ _ _ _ _ _ _ _ Hadd)
        as (nd0 & nd1 & Hself0 & _ & _ & _ & Hself1 & _ & _ & _ & _
            & Hroot1 & _).
      rewrite Hself in Hself0. injection Hself0 as <-.
      unfold start_loop.
      erewrite bind_Done by (eapply get_node_found; eassumption).
      rewrite Hroot1, Hroot. unfold _enter_next_level.
      erewrite bind_Done by (rewrite Hr; reflexivity).
      reflexivity.
Qed.

Lemma back_and_exit_options_witness :
  exists out',
    start_loop 2
      [menu_node "Main Menu [d]" (EnterNextLevel 0) [] DEFAULT_MENU_CONFIG
         [1%nat] true;
       menu_node "[Exit]" (QuitingLevel 0) [] DEFAULT_MENU_CONFIG [] false]
      0 (World ["1"; "2"] "")
    = Done tt (World ["2"] (out' +:+ "Exit CliHelper. Bye." +:+ nl)).
Proof.
  refine (proj2 (proj2 (back_and_exit_options 0
            [new_node "Main Menu" None None None None true] 0%nat
            (new_node "Main Menu" None None None None true)
            [menu_node "Main Menu [d]" (EnterNextLevel 0) []
               DEFAULT_MENU_CONFIG [1%nat] true;
             menu_node "[Exit]" (QuitingLevel 0) [] DEFAULT_MENU_CONFIG []
               false]
            (VInt _ENTER_CODE) "1" ["2"] "" _ _ _ _ _ _ _) _) _).
  - apply (built_root [] None false (World [] "") _ 0%nat (World [] ""));
      [apply built_nothing | vm_compute; reflexivity].
  - reflexivity.
  - reflexivity.
  - eexists. reflexivity.
  - reflexivity.
  - reflexivity.
  - reflexivity.
  - vm_compute. reflexivity.
  - reflexivity.
Defined.

(** ** Traversals that cannot raise *)

(** What [_request_option] comes to on a line that [int] converts. *)
Lemma request_option_convertible fuel h self nd line rest out :
  h !! self = Some nd ->
  convertible line ->
  exists r out',
    _request_option (S fuel) h self (World (line :: rest) out)
    = Done r (World rest out')
    /\ match r with
       | Some c => In c (children nd)
       | None => True
       end.
Proof.
  intros Hself Hline.
  pose proof (option_choice fuel h self nd line rest out Hself) as H.
  destruct (option_check _ line) as [[|]|e] eqn:Hck.
  - destruct H as (c & (k & _ & Hc) & Hr).
    exists (Some c). eexists. split; [exact Hr|].
    apply list_elem_of_In. eapply list_elem_of_lookup_2. exact Hc.
  - exists None. eexists. split; [exact H | exact I].
  - apply option_check_raises in Hck as (_ & Hd & Hnone).
    now destruct (Hline Hd).
Qed.

Lemma ends_well_after {A} fuel line rest (o : outcome A) :
  ends_well fuel rest o -> ends_well (S fuel) (line :: rest) o.
Proof.
  destruct o as [a w'|e w'| |]; simpl; try tauto; [|lia].
  intros [k Hk]. now exists (S k).
Qed.

Lemma ends_well_drop {A} fuel k inp (o : outcome A) :
  ends_well fuel (drop k inp) o -> ends_well fuel inp o.
Proof.
  destruct o as [a w'|e w'| |]; simpl; try tauto.
  - intros [k' Hk']. exists (k + k')%nat. now rewrite Hk', drop_drop.
  - rewrite length_drop. lia.
Qed.

(** On a sound heap a traversal returns or stops at the end of the
    input. *)
Lemma enter_loop_ends_well h :
  sound_heap h ->
  forall fuel (self : node_id) nd state w,
    h !! self = Some nd ->
    children nd <> [] ->
    Forall convertible (stdin w) ->
    ends_well fuel (stdin w) (enter_loop fuel h self state w).
Proof.
  intros Hsound.
  induction fuel as [|fuel IH]; intros self nd state w Hself Hne Hconv;
    [simpl; lia|].
  rewrite enter_loop_round.
  destruct (keeps_looping state);
    [|destruct (is_code state _QUIT_CODE); simpl; now exists 0%nat].
  destruct (Hsound _ _ Hself) as (Hkey & Hagain & _ & _ & Hres & _).
  destruct (redraw_total h self nd state Hself Hkey Hagain Hne Hres)
    as (text & Hredraw).
  destruct w as [inp out]. cbn [stdin] in *.
  unfold choose.
  unfold bind at 1. unfold bind at 1. rewrite Hredraw.
  destruct fuel as [|fuel].
  { unfold _request_option.
    erewrite bind_Done by (eapply get_node_found; eassumption).
    simpl. lia. }
  destruct inp as [|line rest].
  { unfold _request_option.
    erewrite bind_Done by (eapply get_node_found; eassumption).
    unfold bind. rewrite request_input_eof. simpl. auto. }
  apply Forall_cons in Hconv as [Hline Hrest].
  destruct (request_option_convertible fuel h self nd line rest
              (out +:+ text) Hself Hline) as (opt & out1 & -> & Hopt).
  assert (Hcont : forall v w2 k,
    stdin w2 = drop k rest ->
    ends_well (S (S fuel)) (line :: rest)
      (enter_loop (S fuel) h self v w2)).
  { intros v w2 k Hst. apply ends_well_after, (ends_well_drop _ k).
    rewrite <- Hst. apply (IH self nd v w2 Hself Hne).
    rewrite Hst. now apply Forall_drop. }
  destruct opt as [c|]; [|now apply (Hcont VNone _ 0%nat)].
  rewrite Forall_forall in Hres.
  destruct (Hres c) as [optn Hc]; [now apply list_elem_of_In|].
  unfold bind at 1. unfold get_node at 1. rewrite Hc.
  destruct (Hsound _ _ Hc) as (_ & _ & _ & _ & _ & Hexec).
  unfold bind at 1. unfold call_exec_func.
  destruct (exec_func optn) as [|f|j|j|j].
  - destruct Hexec as [-> ->].
    unfold bind, print, print_, ret. cbn [stdin stdout].
    now apply (Hcont VNone _ 0%nat).
  - destruct (Hexec (World rest out1)) as (v & w2 & k & -> & Hst).
    now apply (Hcont v w2 k).
  - destruct Hexec as (-> & Hcne & -> & ->). unfold _enter_next_level.
    pose proof (IH c optn (VInt _ENTER_CODE) (World rest out1) Hc Hcne
                  Hrest) as Hsub.
    destruct (enter_loop (S fuel) h c (VInt _ENTER_CODE) (World rest out1))
      as [v w2|ex w2| |].
    + destruct Hsub as [k Hk]. now apply (Hcont v w2 k).
    + exact Hsub.
    + simpl in *. lia.
    + contradiction.
  - destruct Hexec as [-> ->]. unfold ret.
    now apply (Hcont (VInt _RETURN_CODE) _ 0%nat).
  - destruct Hexec as [-> ->]. unfold ret.
    now apply (Hcont (VInt _QUIT_CODE) _ 0%nat).
Qed.

(** X19. On a heap where every configuration sets every key, to sizes
    that fit, the methods of the class are bound without arguments and
    host functions return, a session raises nothing but the [EOFError] of
    the end of the input, provided no line of the input is a digit string
    that [int] does not convert: [_enter_next_level] on a node with
    children, and [start_loop] on any node, return or raise [EOFError]
    with the input used up, however long the session; and a bound two
    above the number of lines is never exhausted. *)
Theorem sound_heaps_end_well h (self : node_id) nd fuel state w :
  sound_heap h ->
  h !! self = Some nd ->
  Forall convertible (stdin w) ->
  (children nd <> [] ->
   ends_well fuel (stdin w) (enter_loop fuel h self state w))
  /\ (children nd <> [] \/ _is_root nd = false ->
      ends_well fuel (stdin w) (start_loop fuel h self w)).
Proof.
  intros Hsound Hself Hconv. split.
  - intros Hne. now apply (enter_loop_ends_well h Hsound fuel self nd).
  - intros Hcase. unfold start_loop.
    erewrite bind_Done by (eapply get_node_found; eassumption).
    destruct (_is_root nd).
    + destruct Hcase as [Hne|?]; [|discriminate].
      pose proof (enter_loop_ends_well h Hsound fuel self nd
                    (VInt _ENTER_CODE) w Hself Hne Hconv) as H.
      unfold bind, _enter_next_level.
      destruct (enter_loop fuel h self (VInt _ENTER_CODE) w);
        try exact H.
    + simpl. now exists 0%nat.
Qed.

(** The tree of [test.py], under the default configuration, is such a
    heap. *)
Lemma menu_heap_sound : sound_heap (menu_heap DEFAULT_MENU_CONFIG).
Proof.
  intros i nd Hi.
  do 9 (destruct i as [|i];
        [injection Hi as <-;
         repeat split; try discriminate; try reflexivity;
         try (eexists; reflexivity);
         try (repeat constructor; eexists; reflexivity);
         try (intros w; exists VNone; eexists; exists 0%nat;
              split; reflexivity)|]).
  discriminate.
Defined.

Lemma sound_heaps_end_well_witness :
  ends_well 9 ["1"; "7"; "3"; "1"; "x"; "4"]
    (start_loop 9 (menu_heap DEFAULT_MENU_CONFIG) 0
       (World ["1"; "7"; "3"; "1"; "x"; "4"] "")).
Proof.
  refine (proj2 (sound_heaps_end_well (menu_heap DEFAULT_MENU_CONFIG)
                   0%nat
                   (menu_node "Main Menu [d]" (EnterNextLevel 0) []
                      DEFAULT_MENU_CONFIG [1; 6; 7; 8]%nat true)
                   9 (VInt _ENTER_CODE)
                   (World ["1"; "7"; "3"; "1"; "x"; "4"] "")
                   menu_heap_sound eq_refl _) _).
  - repeat (constructor;
            [intros Hd; vm_compute in Hd; vm_compute;
             (discriminate Hd || discriminate)|]).
    constructor.
  - left. discriminate.
Defined.
